(** * Cargo packets and cargo lists (cargopacket.h)

    A shallow embedding of the inline code of [src/cargopacket.h]:
    the packet entity [CargoPacket], the generic cache holder
    [CargoList] and its two specialisations [VehicleCargoList] and
    [StationCargoList].  Machine integers are mathematical integers
    with the wrap-around of every C++ operation written out. *)

From Stdlib Require Import ZArith List Bool Lia.
Import ListNotations.
Local Open Scope Z_scope.

(** ** Machine integers *)

Module MInt.

(** Reduction of a mathematical integer to an unsigned [w]-bit value. *)
Definition wrap_unsigned (w x : Z) : Z := x mod 2 ^ w.

(** Reduction to a two's complement signed [w]-bit value. *)
Definition wrap_signed (w x : Z) : Z :=
  (x + 2 ^ (w - 1)) mod 2 ^ w - 2 ^ (w - 1).

Definition UINT16_MAX : Z := 65535.
Definition UINT_MAX : Z := 4294967295.

Definition is_byte (x : Z) : Prop := 0 <= x <= 255.
Definition is_uint16 (x : Z) : Prop := 0 <= x <= UINT16_MAX.
Definition is_uint (x : Z) : Prop := 0 <= x <= UINT_MAX.

(** [uint16] store: conversion to the 16-bit field type. *)
Definition to_uint16 (x : Z) : Z := wrap_unsigned 16 x.

(** [uint] (32-bit unsigned) arithmetic. *)
Definition to_uint (x : Z) : Z := wrap_unsigned 32 x.
Definition uint_add (a b : Z) : Z := to_uint (a + b).
Definition uint_sub (a b : Z) : Z := to_uint (a - b).

(** [uint / uint]; dividing by zero is undefined behaviour, [None]. *)
Definition uint_div (a b : Z) : option Z :=
  if b =? 0 then None else Some (a / b).

(** [int] (32-bit signed) addition: what [uint16 + uint16] is computed
    in after the integral promotions. *)
Definition int_add (a b : Z) : Z := wrap_signed 32 (a + b).

(** The [min] template of the math helpers, at an unsigned type. *)
Definition min (a b : Z) : Z := if a <? b then a else b.

End MInt.

(** ** Types declared in headers that are not part of the excerpt *)

(** Modelled from the spec: [Money] is declared in economy_type.h, which
    is not in src.  The spec calls a feeder share a "monetary amount";
    it is the signed 64-bit overflow-safe integer of the code base
    (core/overflowsafe_type.hpp): a sum or a product that leaves the
    64-bit range is replaced by the limit on its side, and the division
    of a [Money] by an integer is C++ integer division, which truncates
    toward zero. *)
Definition Money : Type := Z.

Definition INT64_MAX : Z := 9223372036854775807.
Definition INT64_MIN : Z := - INT64_MAX - 1.

Definition is_money (m : Z) : Prop := INT64_MIN <= m <= INT64_MAX.

(** A value brought back into the 64-bit range at the nearest limit. *)
Definition saturate (x : Z) : Z := Z.max INT64_MIN (Z.min INT64_MAX x).

(** [operator += (const OverflowSafeInt &other)]: the sum is replaced
    by a limit when the operands have the same sign and
    [T_MAX - abs (other) < abs (this)]. *)
Definition money_add (m other : Money) : Money :=
  if (INT64_MAX - Z.abs other <? Z.abs m) && Bool.eqb (m <? 0) (other <? 0)
  then (if m <? 0 then INT64_MIN else INT64_MAX)
  else m + other.

(** [operator *= (const int factor)]: the product is replaced by a limit
    when [factor != 0] and [T_MAX / abs (factor) < abs (this)]. *)
Definition money_mul_int (m : Money) (factor : Z) : Money :=
  if negb (factor =? 0) && (INT64_MAX / Z.abs factor <? Z.abs m)
  then (if Bool.eqb (m <? 0) (factor <? 0) then INT64_MAX else INT64_MIN)
  else m * factor.

(** [operator * (const uint factor)]: [result *= (int)factor]. *)
Definition money_mul_uint (m : Money) (k : Z) : Money :=
  money_mul_int m (MInt.wrap_signed 32 k).

Definition money_div_uint (m : Money) (k : Z) : option Money :=
  if k =? 0 then None else Some (Z.quot m k).

(** [StationID] is a 16-bit identifier, [TileIndex] and
    [TileOrStationID] are 32-bit values. *)
Definition StationID : Type := Z.
Definition TileIndex : Type := Z.
Definition TileOrStationID : Type := Z.

(** Modelled from the spec: [CargoSource] is declared in cargo_type.h,
    which is not in src; the spec describes it as a "provenance tag
    (type + identifier of the producing entity)". *)
Record CargoSource : Type := mkCargoSource {
  source_type : Z;
  source_id : Z
}.

(** ** The packet *)

Module CargoPacket.

(** The fields of [struct CargoPacket].  The anonymous union of
    [loaded_at_xy] and [next_station] is one 32-bit cell, read under
    either name. *)
Record t : Type := mk {
  feeder_share : Money;
  count : Z;
  days_in_transit : Z;
  source : CargoSource;
  source_st : StationID;
  source_xy : TileIndex;
  loaded_at_xy : TileOrStationID
}.

Definition next_station (cp : t) : TileOrStationID := loaded_at_xy cp.

(** [static const uint16 MAX_COUNT = UINT16_MAX]. *)
Definition MAX_COUNT : Z := MInt.UINT16_MAX.

(** The value ranges the field types impose. *)
Definition well_typed (cp : t) : Prop :=
  MInt.is_uint16 (count cp) /\ MInt.is_byte (days_in_transit cp).

Definition Count (cp : t) : Z := count cp.
Definition DaysInTransit (cp : t) : Z := days_in_transit cp.
Definition SourceStation (cp : t) : StationID := source_st cp.
Definition SourceStationXY (cp : t) : TileIndex := source_xy cp.
Definition LoadedAtXY (cp : t) : TileIndex := loaded_at_xy cp.

(** [Money FeederShare() const]. *)
Definition FeederShare (cp : t) : Money := feeder_share cp.

(** [Money FeederShare(uint part) const]:
    [feeder_share * part / static_cast<uint>(count)]. *)
Definition FeederShare_part (cp : t) (part : Z) : option Money :=
  money_div_uint (money_mul_uint (feeder_share cp) part) (count cp).

Definition AddFeederShare (cp : t) (new_share : Money) : t :=
  mk (money_add (feeder_share cp) new_share) (count cp) (days_in_transit cp)
     (source cp) (source_st cp) (source_xy cp) (loaded_at_xy cp).

Definition SetLoadPlace (cp : t) (load_place : TileIndex) : t :=
  mk (feeder_share cp) (count cp) (days_in_transit cp)
     (source cp) (source_st cp) (source_xy cp) load_place.

(** Modelled from the spec: the body of [Merge] is in cargopacket.cpp,
    which is not in src.  The spec: "absorbs another packet's [count]
    and [feeder_share] into [this]; callers must first verify
    capacity".  The sum is stored into the [uint16] field; the
    absorbed packet is given back to the pool, so only [this]
    remains. *)
Definition Merge (this cp : t) : t :=
  mk (feeder_share this + feeder_share cp)
     (MInt.to_uint16 (count this + count cp))
     (days_in_transit this) (source this) (source_st this)
     (source_xy this) (loaded_at_xy this).

(** [bool TryMerge (CargoPacket *cp)].  The result is the returned
    flag, the state of [this] and the state of [cp]; [None] for [cp]
    means that [Merge] consumed it. *)
Definition TryMerge (this cp : t) : bool * t * option t :=
  if MInt.int_add (count this) (count cp) >? MAX_COUNT
  then (false, this, Some cp)
  else (true, Merge this cp, None).

(** Modelled from the spec: the body of [Split] is in cargopacket.cpp,
    which is not in src.  The spec: "carves off [new_size] units into
    a new packet, proportionally apportioning [feeder_share]; reduces
    [this.count] by [new_size]; fails (programmer error, fatal) if
    [new_size >= count]", and "divides [feeder_share] proportionally
    (remainder assigned to the retained piece)".  The result is the
    retained packet and the packet carved off; [None] is the fatal
    failure. *)
Definition Split (this : t) (new_size : Z) : option (t * t) :=
  if new_size >=? count this then None
  else
    match FeederShare_part this new_size with
    | None => None
    | Some fs =>
        Some (mk (feeder_share this - fs)
                 (MInt.to_uint16 (count this - new_size))
                 (days_in_transit this) (source this) (source_st this)
                 (source_xy this) (loaded_at_xy this),
              mk fs (MInt.to_uint16 new_size)
                 (days_in_transit this) (source this) (source_st this)
                 (source_xy this) (loaded_at_xy this))
    end.

(** [void SetNextStation(StationID next_station)]: the 16-bit
    identifier is stored into the 32-bit cell of the union. *)
Definition SetNextStation (cp : t) (next : StationID) : t :=
  mk (feeder_share cp) (count cp) (days_in_transit cp)
     (source cp) (source_st cp) (source_xy cp) next.

(** [StationID NextStation() const]: the 32-bit cell is converted to
    the 16-bit return type. *)
Definition NextStation (cp : t) : StationID :=
  MInt.to_uint16 (next_station cp).

End CargoPacket.

(** ** The generic cargo list *)

(** [enum MoveToAction].  [MTA_BEGIN] is another name of [MTA_TRANSFER];
    [MTA_END], which is also [NUM_MOVE_TO_ACTION], is the number of
    designations and the length of [action_counts]. *)
Inductive MoveToAction : Type :=
| MTA_TRANSFER
| MTA_DELIVER
| MTA_KEEP
| MTA_LOAD.

Definition MTA_BEGIN : MoveToAction := MTA_TRANSFER.
Definition NUM_MOVE_TO_ACTION : Z := 4.

Definition MoveToAction_value (a : MoveToAction) : Z :=
  match a with
  | MTA_TRANSFER => 0
  | MTA_DELIVER => 1
  | MTA_KEEP => 2
  | MTA_LOAD => 3
  end.

Definition MoveToAction_eqb (a b : MoveToAction) : bool :=
  MoveToAction_value a =? MoveToAction_value b.

Module CargoList.

(** [template <class Tinst, class Tcont> class CargoList]: the two
    caches and the container of packets. *)
Record t (Tcont : Type) : Type := mk {
  count : Z;
  cargo_days_in_transit : Z;
  packets : Tcont
}.
Arguments mk {Tcont} _ _ _.
Arguments count {Tcont} _.
Arguments cargo_days_in_transit {Tcont} _.
Arguments packets {Tcont} _.

Definition well_typed {Tcont : Type} (l : t Tcont) : Prop :=
  MInt.is_uint (count l) /\ MInt.is_uint (cargo_days_in_transit l).

Definition Packets {Tcont : Type} (l : t Tcont) : Tcont := packets l.

(** [uint DaysInTransit() const]:
    [count == 0 ? 0 : cargo_days_in_transit / count]. *)
Definition DaysInTransit {Tcont : Type} (l : t Tcont) : option Z :=
  if count l =? 0 then Some 0
  else MInt.uint_div (cargo_days_in_transit l) (count l).

End CargoList.

(** [typedef std::list<CargoPacket *> CargoPacketList]; the front of the
    list is its first element, and [front()] of an empty list is
    undefined behaviour. *)
Definition CargoPacketList : Type := list CargoPacket.t.

Definition front (l : CargoPacketList) : option CargoPacket.t :=
  match l with
  | [] => None
  | cp :: _ => Some cp
  end.

(** Sum of the counts of the packets of a sequence. *)
Fixpoint packets_count (l : CargoPacketList) : Z :=
  match l with
  | [] => 0
  | cp :: rest => CargoPacket.count cp + packets_count rest
  end.

(** Sum over the packets of a sequence of [count * days_in_transit]:
    what the comment of [cargo_days_in_transit] calls the "sum of number
    of days in transit of each entity". *)
Fixpoint packets_days (l : CargoPacketList) : Z :=
  match l with
  | [] => 0
  | cp :: rest =>
      CargoPacket.count cp * CargoPacket.days_in_transit cp + packets_days rest
  end.

(** ** The vehicle cargo list *)

Module VehicleCargoList.

(** [uint action_counts[NUM_MOVE_TO_ACTION]], one cell per
    designation. *)
Record ActionCounts : Type := mkCounts {
  transfer_count : Z;
  deliver_count : Z;
  keep_count : Z;
  load_count : Z
}.

(** [action_counts[a]] *)
Definition get (c : ActionCounts) (a : MoveToAction) : Z :=
  match a with
  | MTA_TRANSFER => transfer_count c
  | MTA_DELIVER => deliver_count c
  | MTA_KEEP => keep_count c
  | MTA_LOAD => load_count c
  end.

(** [action_counts[a] = v] *)
Definition set (c : ActionCounts) (a : MoveToAction) (v : Z) : ActionCounts :=
  match a with
  | MTA_TRANSFER => mkCounts v (deliver_count c) (keep_count c) (load_count c)
  | MTA_DELIVER => mkCounts (transfer_count c) v (keep_count c) (load_count c)
  | MTA_KEEP => mkCounts (transfer_count c) (deliver_count c) v (load_count c)
  | MTA_LOAD => mkCounts (transfer_count c) (deliver_count c) (keep_count c) v
  end.

(** [class VehicleCargoList : public CargoList<VehicleCargoList, CargoPacketList>] *)
Record t : Type := mk {
  parent : CargoList.t CargoPacketList;
  feeder_share : Money;
  action_counts : ActionCounts
}.

Definition count (l : t) : Z := CargoList.count (parent l).
Definition cargo_days_in_transit (l : t) : Z :=
  CargoList.cargo_days_in_transit (parent l).
Definition packets (l : t) : CargoPacketList := CargoList.packets (parent l).

Definition well_typed (l : t) : Prop :=
  CargoList.well_typed (parent l) /\
  forall a, MInt.is_uint (get (action_counts l) a).

(** The condition of [AssertCountConsistency]: the sum is a sum of
    [uint] values, so each addition wraps at 32 bits. *)
Definition AssertCountConsistency (l : t) : bool :=
  MInt.uint_add
    (MInt.uint_add
       (MInt.uint_add (get (action_counts l) MTA_KEEP)
                      (get (action_counts l) MTA_DELIVER))
       (get (action_counts l) MTA_TRANSFER))
    (get (action_counts l) MTA_LOAD)
  =? count l.

(** The four designations partition the cached total, as integers. *)
Definition partitioned (l : t) : Prop :=
  get (action_counts l) MTA_TRANSFER + get (action_counts l) MTA_DELIVER +
  get (action_counts l) MTA_KEEP + get (action_counts l) MTA_LOAD = count l.

Definition DaysInTransit (l : t) : option Z := CargoList.DaysInTransit (parent l).

Definition FeederShare (l : t) : Money := feeder_share l.
Definition ActionCount (l : t) (action : MoveToAction) : Z :=
  get (action_counts l) action.
Definition StoredCount (l : t) : Z :=
  MInt.uint_sub (count l) (get (action_counts l) MTA_LOAD).
Definition TotalCount (l : t) : Z := count l.
Definition ReservedCount (l : t) : Z := get (action_counts l) MTA_LOAD.
Definition UnloadCount (l : t) : Z :=
  MInt.uint_add (get (action_counts l) MTA_TRANSFER)
                (get (action_counts l) MTA_DELIVER).
Definition RemainingCount (l : t) : Z :=
  MInt.uint_add (get (action_counts l) MTA_KEEP)
                (get (action_counts l) MTA_LOAD).

(** [void KeepAll()]: the chained assignment stores 0 into the LOAD,
    TRANSFER and DELIVER cells (right to left), then [count] into the
    KEEP cell. *)
Definition KeepAll (l : t) : t :=
  let c1 := set (action_counts l) MTA_LOAD 0 in
  let c2 := set c1 MTA_TRANSFER 0 in
  let c3 := set c2 MTA_DELIVER 0 in
  mk (parent l) (feeder_share l) (set c3 MTA_KEEP (count l)).

(** [void Keep (MoveToAction from, uint max_move = UINT_MAX)].  A
    failed [assert] is fatal: [None]. *)
Definition Keep (l : t) (from : MoveToAction) (max_move : Z) : option t :=
  if negb (MoveToAction_eqb from MTA_DELIVER || MoveToAction_eqb from MTA_LOAD)
  then None
  else
    let max_move := MInt.min (get (action_counts l) from) max_move in
    let c1 := set (action_counts l) from
                  (MInt.uint_sub (get (action_counts l) from) max_move) in
    let c2 := set c1 MTA_KEEP (MInt.uint_add (get c1 MTA_KEEP) max_move) in
    Some (mk (parent l) (feeder_share l) c2).

Section VehicleSource.
(** [INVALID_STATION] is declared in station_type.h, which is not in
    src: the sentinel is a parameter of the model. *)
Variable INVALID_STATION : StationID.

(** [StationID Source() const]:
    [count == 0 ? INVALID_STATION : packets.front()->SourceStation()].
    [None] is the dereference of the front of an empty list. *)
Definition Source (l : t) : option StationID :=
  if count l =? 0 then Some INVALID_STATION
  else
    match front (packets l) with
    | None => None
    | Some cp => Some (CargoPacket.SourceStation cp)
    end.
End VehicleSource.

(** Modelled from the spec: the caches are maintained by code that is
    not in src; the data model says that "the sum of [count] over all
    packets in a list equals that list's cached [count]". *)
Definition count_cached (l : t) : Prop := count l = packets_count (packets l).

End VehicleCargoList.


(** ** The station cargo list *)

(** Modelled from the spec: [MultiMap] is declared in core/multimap.hpp,
    which is not in src.  The spec describes the backing container as a
    "multimap from next-hop station identifier -- including a wildcard
    any key -- to an ordered sequence of owned packet references".  It
    is an association list in key order: one entry per key, holding the
    key's bucket.  [find] and [begin] are the two operations the header
    uses; [begin] of an empty map is its [end], which must not be
    dereferenced. *)
Module MultiMap.

Definition t : Type := list (StationID * CargoPacketList).

Fixpoint find (key : StationID) (m : t) : option CargoPacketList :=
  match m with
  | [] => None
  | (k, bucket) :: rest => if k =? key then Some bucket else find key rest
  end.

Definition begin (m : t) : option (StationID * CargoPacketList) :=
  match m with
  | [] => None
  | entry :: _ => Some entry
  end.

(** [find(key) != end()] *)
Definition contains (key : StationID) (m : t) : bool :=
  match find key m with
  | None => false
  | Some _ => true
  end.

Fixpoint keys_above (lo : Z) (m : t) : Prop :=
  match m with
  | [] => True
  | (k, _) :: rest => lo < k /\ keys_above k rest
  end.

(** Keys strictly increase along the list and no bucket is empty: a
    bucket that loses its last packet is erased with its key. *)
Definition well_formed (m : t) : Prop :=
  keys_above (-1) m /\ Forall (fun entry => snd entry <> []) m.

(** Sum of the counts of all packets of all buckets. *)
Fixpoint total_count (m : t) : Z :=
  match m with
  | [] => 0
  | (_, bucket) :: rest => packets_count bucket + total_count rest
  end.

End MultiMap.

Definition StationCargoPacketMap : Type := MultiMap.t.

(** Modelled from the spec: [StationIDStack] is declared outside src;
    the spec describes it as "an ordered, iterable set of acceptable
    next-hop station identifiers with deterministic iteration order
    (highest priority first)".  It is the sequence of identifiers in
    iteration order, from [begin()] to [end()]. *)
Definition StationIDStack : Type := list StationID.

Module StationCargoList.

(** [class StationCargoList : public CargoList<StationCargoList, StationCargoPacketMap>] *)
Record t : Type := mk {
  parent : CargoList.t StationCargoPacketMap;
  reserved_count : Z
}.

Definition count (l : t) : Z := CargoList.count (parent l).
Definition cargo_days_in_transit (l : t) : Z :=
  CargoList.cargo_days_in_transit (parent l).
Definition packets (l : t) : StationCargoPacketMap := CargoList.packets (parent l).

Definition well_typed (l : t) : Prop :=
  CargoList.well_typed (parent l) /\ MInt.is_uint (reserved_count l).

Definition DaysInTransit (l : t) : option Z := CargoList.DaysInTransit (parent l).

(** [uint AvailableCount() const] *)
Definition AvailableCount (l : t) : Z := count l.

(** [uint ReservedCount() const] *)
Definition ReservedCount (l : t) : Z := reserved_count l.

(** [uint TotalCount() const]: [count + reserved_count] on [uint]. *)
Definition TotalCount (l : t) : Z := MInt.uint_add (count l) (reserved_count l).

Section StationSentinel.
(** [INVALID_STATION] is declared in station_type.h, which is not in
    src: the sentinel is a parameter of the model. *)
Variable INVALID_STATION : StationID.

(** The [for] loop of [HasCargoFor]: it returns [true] at the first
    identifier of the stack that is found in the map, and falls through
    at the end of the stack. *)
Fixpoint HasCargoFor_loop (iter : StationIDStack) (m : StationCargoPacketMap) : bool :=
  match iter with
  | [] => false
  | id :: rest =>
      if MultiMap.contains id m then true else HasCargoFor_loop rest m
  end.

(** [bool HasCargoFor (const StationIDStack &next) const] *)
Definition HasCargoFor (l : t) (next : StationIDStack) : bool :=
  if HasCargoFor_loop next (packets l) then true
  else MultiMap.contains INVALID_STATION (packets l).

(** [StationID Source() const]:
    [count == 0 ? INVALID_STATION : packets.begin()->second.front()->SourceStation()].
    [None] is the dereference of [begin()] of an empty map or of the
    front of an empty bucket. *)
Definition Source (l : t) : option StationID :=
  if count l =? 0 then Some INVALID_STATION
  else
    match MultiMap.begin (packets l) with
    | None => None
    | Some (_, bucket) =>
        match front bucket with
        | None => None
        | Some cp => Some (CargoPacket.SourceStation cp)
        end
    end.
End StationSentinel.

(** Modelled from the spec: the caches are maintained by code that is
    not in src; the data model says that "the sum of [count] over all
    packets in a list equals that list's cached [count]". *)
Definition count_cached (l : t) : Prop :=
  count l = MultiMap.total_count (packets l).

End StationCargoList.


(** * Tiles of the map (tile_map.h)

    The inline functions of [src/tile_map.h] read and write bit fields
    of the two map arrays [_mth] and [_mc].  A failed [assert], an
    access outside the arrays and [NOT_REACHED()] are [None]. *)

Module TileMap.

(** ** Bit fields *)

(** [GB] and [SB] are declared in core/bitmath_func.hpp, which is not in
    src.  [GB (x, s, n)] is [(x >> s) & ((1 << n) - 1)], the [n] bits of
    [x] from bit [s]; [SB (x, s, n, d)] clears those bits of [x] with
    [x &= (T)(~(((1 << n) - 1) << s))] and sets them with
    [x |= (T)(d << s)].  The cells of the map arrays are bytes, so [T]
    is the 8-bit type. *)
Definition GB (x s n : Z) : Z := Z.land (Z.shiftr x s) (Z.shiftl 1 n - 1).

Definition to_byte (x : Z) : Z := MInt.wrap_unsigned 8 x.

Definition SB (x s n d : Z) : Z :=
  Z.lor (Z.land x (to_byte (Z.lnot (Z.shiftl (Z.shiftl 1 n - 1) s))))
        (to_byte (Z.shiftl d s)).

(** [all_below n P] checks [P] on 0, ..., [n - 1]; the facts about bit
    fields of a byte are settled by running through the bytes. *)
Fixpoint all_below (n : nat) (P : Z -> bool) : bool :=
  match n with
  | O => true
  | S k => P (Z.of_nat k) && all_below k P
  end.

(** ** Failure *)

Definition bind {A B : Type} (m : option A) (f : A -> option B) : option B :=
  match m with
  | Some a => f a
  | None => None
  end.

Notation "x <- m ;; k" := (bind m (fun x => k))
  (at level 61, m at next level, right associativity).

(** [assert (b)] *)
Definition assertion (b : bool) : option unit := if b then Some tt else None.

(** ** What the header takes from other headers *)

(** The size of the map, the coordinates of a tile (map_func.h), the
    constants of tile_type.h and the setting [freeform_edges]
    (settings_type.h) are not in src: they are the fields of an
    environment.  [TileType], [TropicZone] and [Owner] are the integer
    values of the enumerations. *)
Record Env : Type := mkEnv {
  MapSize : Z;
  MapMaxX : Z;
  MapMaxY : Z;
  TileX : TileIndex -> Z;
  TileY : TileIndex -> Z;
  freeform_edges : bool;
  MAX_TILE_HEIGHT : Z;
  TILE_HEIGHT : Z;
  TILE_SIZE : Z;
  TT_GROUND : Z;
  TT_OBJECT : Z;
  TT_STATION : Z;
  TT_VOID_TEMP : Z;
  TT_INDUSTRY_TEMP : Z;
  TT_TREES_TEMP : Z;
  TROPICZONE_NORMAL : Z;
  TileTypeHasSubtypes : Z -> bool
}.

(** The bytes of an element of [_mc] that the header touches. *)
Record Tile : Type := mkTile {
  m0 : Z;
  m1 : Z;
  m7 : Z
}.

(** The two arrays: [_mth[tile].type_height] and [_mc[tile]]. *)
Record Map : Type := mkMap {
  type_height : TileIndex -> Z;
  mc : TileIndex -> Tile
}.

Definition bytes (map : Map) : Prop :=
  forall tile,
    MInt.is_byte (type_height map tile) /\ MInt.is_byte (m0 (mc map tile)) /\
    MInt.is_byte (m1 (mc map tile)) /\ MInt.is_byte (m7 (mc map tile)).

(** [array[tile] = v] *)
Definition store {A : Type} (array : TileIndex -> A) (tile : TileIndex) (v : A)
    : TileIndex -> A :=
  fun i => if i =? tile then v else array i.

(** An element of the arrays exists for the tiles below [MapSize()]. *)
Definition in_map (env : Env) (tile : TileIndex) : bool :=
  (0 <=? tile) && (tile <? MapSize env).

Definition read_mth (env : Env) (map : Map) (tile : TileIndex) : option Z :=
  if in_map env tile then Some (type_height map tile) else None.

Definition read_mc (env : Env) (map : Map) (tile : TileIndex) : option Tile :=
  if in_map env tile then Some (mc map tile) else None.

Section Functions.
Variable env : Env.

(** ** Height *)

(** [uint TileHeight(TileIndex tile)] *)
Definition TileHeight (map : Map) (tile : TileIndex) : option Z :=
  _ <- assertion (tile <? MapSize env) ;;
  th <- read_mth env map tile ;;
  Some (GB th 0 4).

(** [void SetTileHeight(TileIndex tile, uint height)] *)
Definition SetTileHeight (map : Map) (tile : TileIndex) (height : Z) : option Map :=
  _ <- assertion (tile <? MapSize env) ;;
  _ <- assertion (height <=? MAX_TILE_HEIGHT env) ;;
  th <- read_mth env map tile ;;
  Some (mkMap (store (type_height map) tile (SB th 0 4 height)) (mc map)).

(** [uint TilePixelHeight(TileIndex tile)] *)
Definition TilePixelHeight (map : Map) (tile : TileIndex) : option Z :=
  h <- TileHeight map tile ;;
  Some (MInt.to_uint (h * TILE_HEIGHT env)).

(** ** Type *)

(** [TileType GetTileType(TileIndex tile)] *)
Definition GetTileType (map : Map) (tile : TileIndex) : option Z :=
  _ <- assertion (tile <? MapSize env) ;;
  c <- read_mc env map tile ;;
  Some (GB (m0 c) 4 4).

(** [bool IsInnerTile(TileIndex tile)] *)
Definition IsInnerTile (tile : TileIndex) : option bool :=
  _ <- assertion (tile <? MapSize env) ;;
  let x := TileX env tile in
  let y := TileY env tile in
  Some ((x <? MapMaxX env) && (y <? MapMaxY env)
        && (((x >? 0) && (y >? 0)) || negb (freeform_edges env))).

(** [void SetTileType(TileIndex tile, TileType type)] *)
Definition SetTileType (map : Map) (tile : TileIndex) (type : Z) : option Map :=
  _ <- assertion (tile <? MapSize env) ;;
  _ <- assertion (type <? 12) ;;
  inner <- IsInnerTile tile ;;
  _ <- assertion (inner || (type =? TT_VOID_TEMP env)) ;;
  c <- read_mc env map tile ;;
  Some (mkMap (type_height map)
              (store (mc map) tile (mkTile (SB (m0 c) 4 4 type) (m1 c) (m7 c)))).

(** [TileSubtype GetTileSubtype(TileIndex tile)] *)
Definition GetTileSubtype (map : Map) (tile : TileIndex) : option Z :=
  _ <- assertion (tile <? MapSize env) ;;
  type <- GetTileType map tile ;;
  _ <- assertion (TileTypeHasSubtypes env type) ;;
  c <- read_mc env map tile ;;
  Some (GB (m1 c) 6 2).

(** [void SetTileTypeSubtype(TileIndex tile, TileType type, TileSubtype subtype)] *)
Definition SetTileTypeSubtype (map : Map) (tile : TileIndex) (type subtype : Z)
    : option Map :=
  _ <- assertion (tile <? MapSize env) ;;
  _ <- assertion (type <? 8) ;;
  _ <- assertion (TileTypeHasSubtypes env type) ;;
  c <- read_mc env map tile ;;
  Some (mkMap (type_height map)
              (store (mc map) tile
                     (mkTile (SB (m0 c) 4 4 type) (SB (m1 c) 6 2 subtype) (m7 c)))).

(** [bool IsTileType(TileIndex tile, TileType type)] *)
Definition IsTileType (map : Map) (tile : TileIndex) (type : Z) : option bool :=
  t <- GetTileType map tile ;;
  Some (t =? type).

(** [bool IsTileSubtype(TileIndex tile, TileSubtype subtype)] *)
Definition IsTileSubtype (map : Map) (tile : TileIndex) (subtype : Z) : option bool :=
  s <- GetTileSubtype map tile ;;
  Some (s =? subtype).

(** [bool IsClearTile(TileIndex tile)] *)
Definition IsClearTile (map : Map) (tile : TileIndex) : option bool :=
  IsTileType map tile (TT_GROUND env).

(** [bool IsHouseTile(TileIndex tile)] *)
Definition IsHouseTile (map : Map) (tile : TileIndex) : option bool :=
  c <- read_mc env map tile ;;
  Some (GB (m0 c) 6 2 =? 3).

(** [bool IsTreeTile(TileIndex tile)] *)
Definition IsTreeTile (map : Map) (tile : TileIndex) : option bool :=
  IsTileType map tile (TT_TREES_TEMP env).

(** [bool IsStationTile(TileIndex tile)] *)
Definition IsStationTile (map : Map) (tile : TileIndex) : option bool :=
  IsTileType map tile (TT_STATION env).

(** [bool IsVoidTile(TileIndex tile)] *)
Definition IsVoidTile (map : Map) (tile : TileIndex) : option bool :=
  IsTileType map tile (TT_VOID_TEMP env).

(** [bool IsIndustryTile(TileIndex tile)] *)
Definition IsIndustryTile (map : Map) (tile : TileIndex) : option bool :=
  IsTileType map tile (TT_INDUSTRY_TEMP env).

(** [bool IsObjectTile(TileIndex tile)] *)
Definition IsObjectTile (map : Map) (tile : TileIndex) : option bool :=
  IsTileType map tile (TT_OBJECT env).

(** [bool IsGroundTile(TileIndex tile)]: [||] evaluates its right
    operand only when the left one is [false]. *)
Definition IsGroundTile (map : Map) (tile : TileIndex) : option bool :=
  clear <- IsClearTile map tile ;;
  if clear then Some true else IsTreeTile map tile.

(** [bool IsValidTile(TileIndex tile)]: [&&] evaluates its right
    operand only when the left one is [true]. *)
Definition IsValidTile (map : Map) (tile : TileIndex) : option bool :=
  if tile <? MapSize env
  then void <- IsVoidTile map tile ;; Some (negb void)
  else Some false.

(** ** Owner *)

(** The three assertions of [GetTileOwner] and [SetTileOwner]. *)
Definition owner_assertions (map : Map) (tile : TileIndex) : option unit :=
  valid <- IsValidTile map tile ;;
  _ <- assertion valid ;;
  house <- IsHouseTile map tile ;;
  _ <- assertion (negb house) ;;
  industry <- IsIndustryTile map tile ;;
  assertion (negb industry).

(** [Owner GetTileOwner(TileIndex tile)] *)
Definition GetTileOwner (map : Map) (tile : TileIndex) : option Z :=
  _ <- owner_assertions map tile ;;
  c <- read_mc env map tile ;;
  Some (GB (m1 c) 0 5).

(** [void SetTileOwner(TileIndex tile, Owner owner)] *)
Definition SetTileOwner (map : Map) (tile : TileIndex) (owner : Z) : option Map :=
  _ <- owner_assertions map tile ;;
  c <- read_mc env map tile ;;
  Some (mkMap (type_height map)
              (store (mc map) tile (mkTile (m0 c) (SB (m1 c) 0 5 owner) (m7 c)))).

(** [bool IsTileOwner(TileIndex tile, Owner owner)] *)
Definition IsTileOwner (map : Map) (tile : TileIndex) (owner : Z) : option bool :=
  o <- GetTileOwner map tile ;;
  Some (o =? owner).

(** ** Tropic zone *)

(** [void SetTropicZone(TileIndex tile, TropicZone type)] *)
Definition SetTropicZone (map : Map) (tile : TileIndex) (type : Z) : option Map :=
  _ <- assertion (tile <? MapSize env) ;;
  void <- IsVoidTile map tile ;;
  _ <- assertion (negb void || (type =? TROPICZONE_NORMAL env)) ;;
  th <- read_mth env map tile ;;
  Some (mkMap (store (type_height map) tile (SB th 6 2 type)) (mc map)).

(** [TropicZone GetTropicZone(TileIndex tile)] *)
Definition GetTropicZone (map : Map) (tile : TileIndex) : option Z :=
  _ <- assertion (tile <? MapSize env) ;;
  th <- read_mth env map tile ;;
  Some (GB th 6 2).

(** ** Animation frame *)

(** The assertion of [GetAnimationFrame] and [SetAnimationFrame]; each
    [||] stops at the first operand that is [true]. *)
Definition animated (map : Map) (t : TileIndex) : option bool :=
  house <- IsHouseTile map t ;;
  if house then Some true else
  object <- IsObjectTile map t ;;
  if object then Some true else
  industry <- IsIndustryTile map t ;;
  if industry then Some true else IsStationTile map t.

(** [byte GetAnimationFrame(TileIndex t)] *)
Definition GetAnimationFrame (map : Map) (t : TileIndex) : option Z :=
  a <- animated map t ;;
  _ <- assertion a ;;
  c <- read_mc env map t ;;
  Some (m7 c).

(** [void SetAnimationFrame(TileIndex t, byte frame)] *)
Definition SetAnimationFrame (map : Map) (t : TileIndex) (frame : Z) : option Map :=
  a <- animated map t ;;
  _ <- assertion a ;;
  c <- read_mc env map t ;;
  Some (mkMap (type_height map) (store (mc map) t (mkTile (m0 c) (m1 c) frame))).

End Functions.

(** ** Positions within a tile *)

(** The values of [DiagDirection] that [DistanceFromTileEdge] tells
    apart; [DIAGDIR_END] stands for every other value of the
    enumeration. *)
Inductive DiagDirection : Type :=
| DIAGDIR_NE
| DIAGDIR_SE
| DIAGDIR_SW
| DIAGDIR_NW
| DIAGDIR_END.

(** [uint DistanceFromTileEdge(DiagDirection side, uint x, uint y)] *)
Definition DistanceFromTileEdge (env : Env) (side : DiagDirection) (x y : Z)
    : option Z :=
  _ <- assertion (x <? TILE_SIZE env) ;;
  _ <- assertion (y <? TILE_SIZE env) ;;
  match side with
  | DIAGDIR_NE => Some x
  | DIAGDIR_SE => Some (MInt.uint_sub (MInt.uint_sub (TILE_SIZE env) 1) y)
  | DIAGDIR_SW => Some (MInt.uint_sub (MInt.uint_sub (TILE_SIZE env) 1) x)
  | DIAGDIR_NW => Some y
  | DIAGDIR_END => None
  end.

(** [uint TileHash(uint x, uint y)] *)
Definition TileHash (x y : Z) : Z :=
  let hash := Z.shiftr x 4 in
  let hash := Z.lxor hash (Z.shiftr x 6) in
  let hash := Z.lxor hash (Z.shiftr y 4) in
  let hash := MInt.uint_sub hash (Z.shiftr y 6) in
  hash.

(** [uint TileHash2Bit(uint x, uint y)] *)
Definition TileHash2Bit (x y : Z) : Z := GB (TileHash x y) 0 2.

End TileMap.

(** ** Concrete packets and lists

    The inputs of the scenarios of the spec and of the evaluations
    below. *)

(** Scenario A of the spec: a packet of 50 units and one of 30 units. *)
Definition packet_50 : CargoPacket.t :=
  CargoPacket.mk 120 50 3 (mkCargoSource 0 7) 1 1000 3.

Definition packet_30 : CargoPacket.t :=
  CargoPacket.mk 40 30 3 (mkCargoSource 0 7) 1 1000 3.

(** Scenario B of the spec: a packet of 65000 units and one of 1000
    units with the same attributes. *)
Definition packet_65000 : CargoPacket.t :=
  CargoPacket.mk 0 65000 3 (mkCargoSource 0 7) 1 1000 3.

Definition packet_1000 : CargoPacket.t :=
  CargoPacket.mk 0 1000 3 (mkCargoSource 0 7) 1 1000 3.

(** A full packet whose feeder share times its count does not fit 64
    bits. *)
Definition packet_large_share : CargoPacket.t :=
  CargoPacket.mk 200000000000000 65535 0 (mkCargoSource 0 7) 1 1000 3.


(** A vehicle carrying the two packets of scenario A: 30 units are to be
    delivered, 50 units stay aboard. *)
Definition vehicle_80 : VehicleCargoList.t :=
  VehicleCargoList.mk
    (CargoList.mk 80 240 [packet_50; packet_30])
    160
    (VehicleCargoList.mkCounts 0 30 50 0).

(** A station holding the same packets under the next hops 5 and 9, with
    10 more units reserved for a vehicle. *)
Definition station_80 : StationCargoList.t :=
  StationCargoList.mk
    (CargoList.mk 80 240 [(5, [packet_50]); (9, [packet_30])])
    10.

(** A map of 16 by 16 tiles with its environment.  Tile 17, at x = 1 and
    y = 1, has height 5 in tropic zone 1, type 1, subtype 1 and owner 3;
    every other tile is all zeroes. *)
Definition env_16 : TileMap.Env :=
  TileMap.mkEnv 256 15 15 (fun tile => tile mod 16) (fun tile => tile / 16) true
                15 8 16 0 1 7 8 9 11 0 (fun type => type <? 8).

Definition map_16 : TileMap.Map :=
  TileMap.mkMap (fun tile => if tile =? 17 then 69 else 0)
                (fun tile => if tile =? 17 then TileMap.mkTile 16 67 0
                             else TileMap.mkTile 0 0 0).

(** * Properties *)

(** ** Machine arithmetic *)

Lemma to_uint_small (x : Z) : MInt.is_uint x -> MInt.to_uint x = x.
Proof.
  unfold MInt.is_uint, MInt.UINT_MAX, MInt.to_uint, MInt.wrap_unsigned.
  intros H. apply Z.mod_small. change (2 ^ 32) with 4294967296. lia.
Qed.

Lemma to_uint_range (x : Z) : MInt.is_uint (MInt.to_uint x).
Proof.
  unfold MInt.is_uint, MInt.UINT_MAX, MInt.to_uint, MInt.wrap_unsigned.
  change (2 ^ 32) with 4294967296.
  pose proof (Z.mod_pos_bound x 4294967296). lia.
Qed.

Lemma to_uint16_small (x : Z) : MInt.is_uint16 x -> MInt.to_uint16 x = x.
Proof.
  unfold MInt.is_uint16, MInt.UINT16_MAX, MInt.to_uint16, MInt.wrap_unsigned.
  intros H. apply Z.mod_small. change (2 ^ 16) with 65536. lia.
Qed.

Lemma to_uint16_range (x : Z) : MInt.is_uint16 (MInt.to_uint16 x).
Proof.
  unfold MInt.is_uint16, MInt.UINT16_MAX, MInt.to_uint16, MInt.wrap_unsigned.
  change (2 ^ 16) with 65536.
  pose proof (Z.mod_pos_bound x 65536). lia.
Qed.

Lemma uint_add_exact (a b : Z) :
  0 <= a -> 0 <= b -> a + b <= MInt.UINT_MAX -> MInt.uint_add a b = a + b.
Proof.
  intros Ha Hb Hab. unfold MInt.uint_add. apply to_uint_small.
  unfold MInt.is_uint. lia.
Qed.

Lemma uint_sub_exact (a b : Z) :
  MInt.is_uint a -> 0 <= b <= a -> MInt.uint_sub a b = a - b.
Proof.
  intros Ha Hb. unfold MInt.uint_sub. apply to_uint_small.
  unfold MInt.is_uint in *. lia.
Qed.

(** A sum of two [uint16] values fits the promoted type [int]. *)
Lemma int_add_uint16 (a b : Z) :
  MInt.is_uint16 a -> MInt.is_uint16 b -> MInt.int_add a b = a + b.
Proof.
  unfold MInt.is_uint16, MInt.UINT16_MAX, MInt.int_add, MInt.wrap_signed.
  intros Ha Hb. change (2 ^ (32 - 1)) with 2147483648.
  change (2 ^ 32) with 4294967296.
  rewrite Z.mod_small by lia. lia.
Qed.

Lemma min_spec (a b : Z) : MInt.min a b = Z.min a b.
Proof.
  unfold MInt.min. destruct (Z.ltb_spec a b); lia.
Qed.

(** ** Packets *)


Lemma packet_well_typed (fs c d : Z) (src : CargoSource) (st xy at_xy : Z) :
  0 <= c <= 65535 -> 0 <= d <= 255 ->
  CargoPacket.well_typed (CargoPacket.mk fs c d src st xy at_xy).
Proof.
  intros Hc Hd. split; [exact Hc | exact Hd].
Defined.


(** *** Products and quotients of money *)

Lemma wrap_signed_small (k : Z) :
  0 <= k < 2147483648 -> MInt.wrap_signed 32 k = k.
Proof.
  intros H. unfold MInt.wrap_signed.
  change (2 ^ (32 - 1)) with 2147483648. change (2 ^ 32) with 4294967296.
  rewrite Z.mod_small by lia. lia.
Qed.

(** The product of the overflow-safe integer is the exact product
    brought back into the 64-bit range. *)
Lemma money_mul_int_saturates (m factor : Z) :
  money_mul_int m factor = saturate (m * factor).
Proof.
  unfold money_mul_int, saturate, INT64_MIN.
  assert (HT : INT64_MAX = 9223372036854775807) by reflexivity.
  destruct (Z.eqb_spec factor 0) as [E | NE]; simpl.
  - subst factor. rewrite Z.mul_0_r. lia.
  - assert (Hpos : 0 < Z.abs factor) by lia.
    pose proof (Z.div_mod INT64_MAX (Z.abs factor) ltac:(lia)) as Hdm.
    pose proof (Z.mod_pos_bound INT64_MAX (Z.abs factor) Hpos) as Hmod.
    pose proof (Z.abs_mul m factor) as Habs.
    destruct (Z.ltb_spec (INT64_MAX / Z.abs factor) (Z.abs m)) as [Hlt | Hge].
    + assert (Hbig : INT64_MAX < Z.abs (m * factor)) by (rewrite Habs; nia).
      destruct (Z.ltb_spec m 0) as [Hm | Hm];
        destruct (Z.ltb_spec factor 0) as [Hf | Hf]; simpl.
      * assert (0 < m * factor) by nia. lia.
      * assert (m * factor <= 0) by nia. lia.
      * assert (m * factor <= 0) by nia. lia.
      * assert (0 <= m * factor) by nia. lia.
    + assert (Hsmall : Z.abs (m * factor) <= INT64_MAX) by (rewrite Habs; nia).
      lia.
Qed.

Lemma saturate_in_range (x : Z) : is_money x -> saturate x = x.
Proof.
  unfold is_money, saturate. lia.
Qed.

(** [FeederShare(part)] for a part that the cast to [int] leaves as it
    is: the saturated product, divided with truncation. *)
Lemma FeederShare_part_saturated (cp : CargoPacket.t) (part : Z) :
  CargoPacket.count cp <> 0 -> 0 <= part < 2147483648 ->
  CargoPacket.FeederShare_part cp part
    = Some (Z.quot (saturate (CargoPacket.feeder_share cp * part))
                   (CargoPacket.count cp)).
Proof.
  intros Hc Hp. unfold CargoPacket.FeederShare_part, money_div_uint, money_mul_uint.
  destruct (Z.eqb_spec (CargoPacket.count cp) 0) as [E | _]; [contradiction |].
  rewrite (wrap_signed_small part Hp), money_mul_int_saturates. reflexivity.
Qed.






(** ** The generic cargo list *)

Lemma CargoList_DaysInTransit_eq (Tcont : Type) (l : CargoList.t Tcont) :
  CargoList.DaysInTransit l
    = Some (if CargoList.count l =? 0 then 0
            else CargoList.cargo_days_in_transit l / CargoList.count l).
Proof.
  unfold CargoList.DaysInTransit, MInt.uint_div.
  destruct (CargoList.count l =? 0); reflexivity.
Qed.

(** C6. [DaysInTransit] always returns a value: 0 when the cached count
    is 0, and otherwise the quotient of [cargo_days_in_transit] by
    [count]; the division is never reached with a zero divisor.  This
    holds for the generic list and so for the vehicle list and the
    station list. *)
Theorem DaysInTransit_guarded (Tcont : Type) (l : CargoList.t Tcont)
    (v : VehicleCargoList.t) (s : StationCargoList.t) :
  CargoList.DaysInTransit l
    = Some (if CargoList.count l =? 0 then 0
            else CargoList.cargo_days_in_transit l / CargoList.count l) /\
  VehicleCargoList.DaysInTransit v
    = Some (if VehicleCargoList.count v =? 0 then 0
            else VehicleCargoList.cargo_days_in_transit v / VehicleCargoList.count v) /\
  StationCargoList.DaysInTransit s
    = Some (if StationCargoList.count s =? 0 then 0
            else StationCargoList.cargo_days_in_transit s / StationCargoList.count s).
Proof.
  split; [apply CargoList_DaysInTransit_eq |].
  split; apply CargoList_DaysInTransit_eq.
Qed.

(** ** The station cargo list *)

(** C4. In every state of a station cargo list, and so after every
    operation on it, [AvailableCount() + ReservedCount()] (a sum of
    [uint] values) equals [TotalCount()]; [AvailableCount()] is the
    cached count, which leaves the reserved cargo out, and
    [TotalCount()] adds the reserved cargo to it.  When the sum fits 32
    bits the equation holds over the integers. *)
Theorem station_counts_add_up (l : StationCargoList.t) :
  MInt.uint_add (StationCargoList.AvailableCount l) (StationCargoList.ReservedCount l)
    = StationCargoList.TotalCount l /\
  StationCargoList.AvailableCount l = StationCargoList.count l /\
  StationCargoList.ReservedCount l = StationCargoList.reserved_count l /\
  (forall op : StationCargoList.t -> StationCargoList.t,
     MInt.uint_add (StationCargoList.AvailableCount (op l))
                   (StationCargoList.ReservedCount (op l))
       = StationCargoList.TotalCount (op l)) /\
  (StationCargoList.well_typed l ->
   StationCargoList.count l + StationCargoList.reserved_count l <= MInt.UINT_MAX ->
     StationCargoList.AvailableCount l + StationCargoList.ReservedCount l
       = StationCargoList.TotalCount l).
Proof.
  split; [reflexivity |]. split; [reflexivity |]. split; [reflexivity |].
  split; [intros op; reflexivity |].
  intros [[Hc _] Hr] Hsum.
  unfold StationCargoList.TotalCount, StationCargoList.AvailableCount,
    StationCargoList.ReservedCount.
  symmetry. apply uint_add_exact; [apply Hc | apply Hr | exact Hsum].
Qed.

Lemma station_counts_add_up_witness :
  StationCargoList.well_typed station_80 /\
  StationCargoList.count station_80 + StationCargoList.reserved_count station_80
    <= MInt.UINT_MAX /\
  StationCargoList.AvailableCount station_80 + StationCargoList.ReservedCount station_80
    = StationCargoList.TotalCount station_80.
Proof.
  assert (Hw : StationCargoList.well_typed station_80).
  { unfold StationCargoList.well_typed, CargoList.well_typed, MInt.is_uint, MInt.UINT_MAX.
    simpl. lia. }
  assert (Hs : StationCargoList.count station_80
               + StationCargoList.reserved_count station_80 <= MInt.UINT_MAX).
  { unfold MInt.UINT_MAX. simpl. lia. }
  split; [exact Hw |]. split; [exact Hs |].
  exact (proj2 (proj2 (proj2 (proj2 (station_counts_add_up station_80)))) Hw Hs).
Defined.

(** ** The vehicle cargo list *)

Lemma get_set_same (c : VehicleCargoList.ActionCounts) (a : MoveToAction) (v : Z) :
  VehicleCargoList.get (VehicleCargoList.set c a v) a = v.
Proof. destruct a; reflexivity. Qed.

Lemma get_set_other (c : VehicleCargoList.ActionCounts) (a b : MoveToAction) (v : Z) :
  a <> b -> VehicleCargoList.get (VehicleCargoList.set c a v) b = VehicleCargoList.get c b.
Proof. destruct a, b; intros H; try reflexivity; contradiction H; reflexivity. Qed.

Lemma AssertCountConsistency_partitioned (l : VehicleCargoList.t) :
  VehicleCargoList.well_typed l ->
  VehicleCargoList.partitioned l ->
  VehicleCargoList.AssertCountConsistency l = true.
Proof.
  intros [[Hc _] Ha] Hp.
  unfold VehicleCargoList.partitioned in Hp.
  unfold VehicleCargoList.AssertCountConsistency.
  pose proof (Ha MTA_TRANSFER) as Ht. pose proof (Ha MTA_DELIVER) as Hd.
  pose proof (Ha MTA_KEEP) as Hk. pose proof (Ha MTA_LOAD) as Hl.
  unfold VehicleCargoList.count in *.
  unfold MInt.is_uint in *.
  set (t := VehicleCargoList.get _ MTA_TRANSFER) in *.
  set (d := VehicleCargoList.get _ MTA_DELIVER) in *.
  set (k := VehicleCargoList.get _ MTA_KEEP) in *.
  set (ld := VehicleCargoList.get _ MTA_LOAD) in *.
  rewrite (uint_add_exact k d) by lia.
  rewrite (uint_add_exact (k + d) t) by lia.
  rewrite (uint_add_exact (k + d + t) ld) by lia.
  apply Z.eqb_eq. lia.
Qed.

(** C8. After [KeepAll] the TRANSFER, DELIVER and LOAD cells are 0 and
    the KEEP cell holds the cached count, whatever the cells held
    before: the four cells partition the count, and the condition of
    [AssertCountConsistency] holds.  The caches of the base list and the
    packets are untouched. *)
Theorem KeepAll_all_kept (l : VehicleCargoList.t) :
  MInt.is_uint (VehicleCargoList.count l) ->
  VehicleCargoList.ActionCount (VehicleCargoList.KeepAll l) MTA_TRANSFER = 0 /\
  VehicleCargoList.ActionCount (VehicleCargoList.KeepAll l) MTA_DELIVER = 0 /\
  VehicleCargoList.ActionCount (VehicleCargoList.KeepAll l) MTA_LOAD = 0 /\
  VehicleCargoList.ActionCount (VehicleCargoList.KeepAll l) MTA_KEEP
    = VehicleCargoList.count l /\
  VehicleCargoList.partitioned (VehicleCargoList.KeepAll l) /\
  VehicleCargoList.AssertCountConsistency (VehicleCargoList.KeepAll l) = true /\
  VehicleCargoList.count (VehicleCargoList.KeepAll l) = VehicleCargoList.count l /\
  VehicleCargoList.packets (VehicleCargoList.KeepAll l) = VehicleCargoList.packets l /\
  VehicleCargoList.parent (VehicleCargoList.KeepAll l) = VehicleCargoList.parent l /\
  VehicleCargoList.feeder_share (VehicleCargoList.KeepAll l)
    = VehicleCargoList.feeder_share l.
Proof.
  intros Hc.
  repeat (split; [reflexivity |]).
  split.
  { unfold VehicleCargoList.partitioned. simpl. unfold VehicleCargoList.count. simpl. lia. }
  split.
  { unfold VehicleCargoList.AssertCountConsistency. simpl.
    unfold VehicleCargoList.count in *. simpl.
    unfold MInt.is_uint in Hc.
    set (n := CargoList.count _) in *.
    rewrite (uint_add_exact n 0) by lia.
    rewrite (uint_add_exact (n + 0) 0) by lia.
    rewrite (uint_add_exact (n + 0 + 0) 0) by lia.
    apply Z.eqb_eq. lia. }
  repeat split.
Qed.

Lemma KeepAll_all_kept_witness :
  MInt.is_uint (VehicleCargoList.count vehicle_80) /\
  VehicleCargoList.ActionCount (VehicleCargoList.KeepAll vehicle_80) MTA_KEEP = 80 /\
  VehicleCargoList.AssertCountConsistency (VehicleCargoList.KeepAll vehicle_80) = true.
Proof.
  assert (Hc : MInt.is_uint (VehicleCargoList.count vehicle_80)).
  { unfold MInt.is_uint, MInt.UINT_MAX, VehicleCargoList.count, vehicle_80.
    simpl. lia. }
  pose proof (KeepAll_all_kept vehicle_80 Hc) as H.
  split; [exact Hc |].
  split; [exact (proj1 (proj2 (proj2 (proj2 H)))) |].
  exact (proj1 (proj2 (proj2 (proj2 (proj2 (proj2 H)))))).
Defined.

Lemma Keep_asserts (l : VehicleCargoList.t) (from : MoveToAction) (max_move : Z) :
  VehicleCargoList.Keep l from max_move = None
    <-> from <> MTA_DELIVER /\ from <> MTA_LOAD.
Proof.
  destruct from; unfold VehicleCargoList.Keep; simpl;
    (split; [intros H; try discriminate H; split; discriminate
            | intros [H1 H2]; try reflexivity;
              try (contradiction H1; reflexivity);
              contradiction H2; reflexivity]).
Qed.

(** C7. [Keep (from, max_move)] fails its assertion unless [from] is
    [MTA_DELIVER] or [MTA_LOAD]; otherwise it takes
    [min (action_counts[from], max_move)] units, no more than
    [max_move] and no more than the cell holds, out of the [from] cell
    and adds them to the KEEP cell (a [uint] addition, exact whenever the
    cells partition the count).  The two other cells, the cached count,
    the feeder share and the packets stay as they are, and a partition
    of the count stays a partition. *)
Theorem Keep_moves_clamped (l : VehicleCargoList.t) (from : MoveToAction) (max_move : Z) :
  VehicleCargoList.well_typed l -> MInt.is_uint max_move ->
  (VehicleCargoList.Keep l from max_move = None
     <-> from <> MTA_DELIVER /\ from <> MTA_LOAD) /\
  (from = MTA_DELIVER \/ from = MTA_LOAD ->
   exists l',
     VehicleCargoList.Keep l from max_move = Some l' /\
     Z.min (VehicleCargoList.ActionCount l from) max_move <= max_move /\
     Z.min (VehicleCargoList.ActionCount l from) max_move
       <= VehicleCargoList.ActionCount l from /\
     VehicleCargoList.ActionCount l' from
       = VehicleCargoList.ActionCount l from
         - Z.min (VehicleCargoList.ActionCount l from) max_move /\
     VehicleCargoList.ActionCount l' MTA_KEEP
       = MInt.uint_add (VehicleCargoList.ActionCount l MTA_KEEP)
                       (Z.min (VehicleCargoList.ActionCount l from) max_move) /\
     (VehicleCargoList.partitioned l ->
        VehicleCargoList.ActionCount l' MTA_KEEP
          = VehicleCargoList.ActionCount l MTA_KEEP
            + Z.min (VehicleCargoList.ActionCount l from) max_move /\
        VehicleCargoList.partitioned l') /\
     (forall a, a <> from -> a <> MTA_KEEP ->
        VehicleCargoList.ActionCount l' a = VehicleCargoList.ActionCount l a) /\
     VehicleCargoList.count l' = VehicleCargoList.count l /\
     VehicleCargoList.feeder_share l' = VehicleCargoList.feeder_share l /\
     VehicleCargoList.packets l' = VehicleCargoList.packets l /\
     VehicleCargoList.parent l' = VehicleCargoList.parent l).
Proof.
  intros [[Hc _] Ha] Hm.
  split; [apply Keep_asserts |].
  intros Hfrom.
  assert (Hk : from <> MTA_KEEP) by (destruct Hfrom; subst; discriminate).
  assert (Hkeep : VehicleCargoList.Keep l from max_move
            = Some (VehicleCargoList.mk (VehicleCargoList.parent l)
                      (VehicleCargoList.feeder_share l)
                      (VehicleCargoList.set
                         (VehicleCargoList.set (VehicleCargoList.action_counts l) from
                            (VehicleCargoList.get (VehicleCargoList.action_counts l) from
                             - Z.min (VehicleCargoList.get (VehicleCargoList.action_counts l) from) max_move))
                         MTA_KEEP
                         (MInt.uint_add
                            (VehicleCargoList.get (VehicleCargoList.action_counts l) MTA_KEEP)
                            (Z.min (VehicleCargoList.get (VehicleCargoList.action_counts l) from) max_move))))).
  { unfold VehicleCargoList.Keep.
    replace (negb (MoveToAction_eqb from MTA_DELIVER || MoveToAction_eqb from MTA_LOAD))
      with false by (destruct Hfrom; subst; reflexivity).
    rewrite min_spec.
    rewrite (get_set_other _ from MTA_KEEP) by exact Hk.
    rewrite uint_sub_exact; [reflexivity | apply Ha |].
    pose proof (Ha from) as Hf. unfold MInt.is_uint in Hf, Hm. lia. }
  eexists. split; [exact Hkeep |].
  unfold VehicleCargoList.ActionCount.
  cbn [VehicleCargoList.action_counts].
  pose proof (Ha from) as Hf. pose proof (Ha MTA_KEEP) as Hkp.
  unfold MInt.is_uint in Hf, Hm, Hkp, Hc.
  split; [lia |]. split; [lia |].
  split.
  { rewrite get_set_other by (intros E; apply Hk; symmetry; exact E).
    apply get_set_same. }
  split; [apply get_set_same |].
  split.
  { intros Hp.
    assert (Hsum : VehicleCargoList.get (VehicleCargoList.action_counts l) MTA_KEEP
                   + VehicleCargoList.get (VehicleCargoList.action_counts l) from
                   <= MInt.UINT_MAX).
    { unfold VehicleCargoList.partitioned, VehicleCargoList.count in Hp.
      pose proof (Ha MTA_TRANSFER) as Ht. pose proof (Ha MTA_DELIVER) as Hd.
      pose proof (Ha MTA_LOAD) as Hl. unfold MInt.is_uint in Ht, Hd, Hl.
      destruct Hfrom; subst from; lia. }
    rewrite get_set_same.
    rewrite uint_add_exact by lia.
    split; [reflexivity |].
    unfold VehicleCargoList.partitioned, VehicleCargoList.count in *. simpl.
    destruct Hfrom; subst from; simpl in *; lia. }
  split.
  { intros a Hfa Hka.
    rewrite get_set_other by (intros E; apply Hka; symmetry; exact E).
    apply get_set_other. intros E; apply Hfa; symmetry; exact E. }
  repeat split.
Qed.

Lemma Keep_moves_clamped_witness :
  VehicleCargoList.well_typed vehicle_80 /\ MInt.is_uint 20 /\
  exists l',
    VehicleCargoList.Keep vehicle_80 MTA_DELIVER 20 = Some l' /\
    VehicleCargoList.ActionCount l' MTA_DELIVER = 30 - Z.min 30 20.
Proof.
  assert (Hw : VehicleCargoList.well_typed vehicle_80).
  { unfold VehicleCargoList.well_typed, CargoList.well_typed, MInt.is_uint,
      MInt.UINT_MAX, vehicle_80.
    simpl. split; [lia |]. intros a; destruct a; simpl; lia. }
  assert (Hm : MInt.is_uint 20) by (unfold MInt.is_uint, MInt.UINT_MAX; lia).
  split; [exact Hw |]. split; [exact Hm |].
  destruct (proj2 (Keep_moves_clamped vehicle_80 MTA_DELIVER 20 Hw Hm) (or_introl eq_refl))
    as [l' [Hk [_ [_ [Hfrom _]]]]].
  exists l'. split; [exact Hk | exact Hfrom].
Defined.

(** ** The keyed container of the station list *)

Lemma contains_find (key : StationID) (m : MultiMap.t) :
  MultiMap.contains key m = true <-> exists bucket, MultiMap.find key m = Some bucket.
Proof.
  unfold MultiMap.contains. destruct (MultiMap.find key m) as [b |].
  - split; [intros _; exists b; reflexivity | reflexivity].
  - split; [discriminate | intros [b Hb]; discriminate Hb].
Qed.

Lemma find_In (key : StationID) (m : MultiMap.t) (bucket : CargoPacketList) :
  MultiMap.find key m = Some bucket -> In (key, bucket) m.
Proof.
  induction m as [| [k b] rest IH]; simpl; [discriminate |].
  destruct (Z.eqb_spec k key) as [E | _].
  - intros H. injection H as H. subst. left. reflexivity.
  - intros H. right. apply IH. exact H.
Qed.

Lemma find_bucket_nonempty (m : MultiMap.t) :
  MultiMap.well_formed m ->
  forall key bucket, MultiMap.find key m = Some bucket -> bucket <> [].
Proof.
  intros [_ Hne] key bucket Hf.
  rewrite Forall_forall in Hne.
  exact (Hne (key, bucket) (find_In _ _ _ Hf)).
Qed.

Lemma find_key_above (m : MultiMap.t) :
  forall lo key bucket,
    MultiMap.keys_above lo m -> MultiMap.find key m = Some bucket -> lo < key.
Proof.
  induction m as [| [k b] rest IH]; simpl; intros lo key bucket Hk Hf;
    [discriminate |].
  destruct Hk as [Hlo Hrest].
  destruct (Z.eqb_spec k key) as [E | _].
  - lia.
  - pose proof (IH k key bucket Hrest Hf). lia.
Qed.

Lemma HasCargoFor_loop_true (next : StationIDStack) (m : StationCargoPacketMap) :
  StationCargoList.HasCargoFor_loop next m = true
    <-> exists id, In id next /\ MultiMap.contains id m = true.
Proof.
  induction next as [| id rest IH]; simpl.
  - split; [discriminate | intros [id [[] _]]].
  - destruct (MultiMap.contains id m) eqn:E.
    + split; [intros _; exists id; split; [left; reflexivity | exact E] | reflexivity].
    + rewrite IH. split.
      * intros [x [Hin Hx]]. exists x. split; [right; exact Hin | exact Hx].
      * intros [x [[Hx | Hin] Hc]].
        -- subst x. rewrite E in Hc. discriminate Hc.
        -- exists x. split; assumption.
Qed.

(** C9. [HasCargoFor (next)] is [true] exactly when some identifier of
    the stack [next] is a key of the map of packets, or the key
    [INVALID_STATION] is; in a well-formed map the bucket of a key holds
    at least one packet.  On a list without packets the answer is
    [false] for every stack. *)
Theorem HasCargoFor_iff (INVALID_STATION : StationID) (l : StationCargoList.t)
    (next : StationIDStack) :
  (StationCargoList.HasCargoFor INVALID_STATION l next = true <->
     (exists id bucket,
        In id next /\ MultiMap.find id (StationCargoList.packets l) = Some bucket) \/
     (exists bucket,
        MultiMap.find INVALID_STATION (StationCargoList.packets l) = Some bucket)) /\
  (MultiMap.well_formed (StationCargoList.packets l) ->
     forall id bucket,
       MultiMap.find id (StationCargoList.packets l) = Some bucket -> bucket <> []) /\
  (StationCargoList.packets l = [] ->
     StationCargoList.HasCargoFor INVALID_STATION l next = false).
Proof.
  split; [| split].
  - unfold StationCargoList.HasCargoFor.
    destruct (StationCargoList.HasCargoFor_loop next (StationCargoList.packets l)) eqn:E.
    + split; [intros _ | reflexivity].
      apply HasCargoFor_loop_true in E. destruct E as [id [Hin Hc]].
      apply contains_find in Hc. destruct Hc as [b Hb].
      left. exists id, b. split; assumption.
    + rewrite contains_find. split.
      * intros H. right. exact H.
      * intros [[id [b [Hin Hb]]] | H]; [| exact H].
        assert (Ht : StationCargoList.HasCargoFor_loop next (StationCargoList.packets l) = true).
        { apply HasCargoFor_loop_true. exists id. split; [exact Hin |].
          apply contains_find. exists b. exact Hb. }
        rewrite E in Ht. discriminate Ht.
  - apply find_bucket_nonempty.
  - intros Hempty. unfold StationCargoList.HasCargoFor. rewrite Hempty.
    assert (Hl : StationCargoList.HasCargoFor_loop next [] = false).
    { clear. induction next as [| id rest IH]; simpl; [reflexivity | exact IH]. }
    rewrite Hl. reflexivity.
Qed.

Lemma station_80_well_formed : MultiMap.well_formed (StationCargoList.packets station_80).
Proof.
  unfold MultiMap.well_formed, station_80, StationCargoList.packets. simpl.
  split; [lia |].
  repeat constructor; simpl; discriminate.
Defined.

Lemma HasCargoFor_iff_witness :
  MultiMap.well_formed (StationCargoList.packets station_80) /\
  MultiMap.find 9 (StationCargoList.packets station_80) = Some [packet_30] /\
  [packet_30] <> [].
Proof.
  split; [exact station_80_well_formed |].
  assert (Hf : MultiMap.find 9 (StationCargoList.packets station_80) = Some [packet_30])
    by reflexivity.
  split; [exact Hf |].
  exact (proj1 (proj2 (HasCargoFor_iff 65535 station_80 [9]))
           station_80_well_formed 9 [packet_30] Hf).
Defined.

(** ** The source of a list *)

Lemma packets_count_nil_free (l : CargoPacketList) :
  packets_count l <> 0 -> exists cp rest, l = cp :: rest.
Proof.
  destruct l as [| cp rest]; simpl; intros H.
  - contradiction H. reflexivity.
  - exists cp, rest. reflexivity.
Qed.

Lemma total_count_nil_free (m : MultiMap.t) :
  MultiMap.total_count m <> 0 -> exists key bucket more, m = (key, bucket) :: more.
Proof.
  destruct m as [| [key bucket] more]; simpl; intros H.
  - contradiction H. reflexivity.
  - exists key, bucket, more. reflexivity.
Qed.

(** C10. [Source] of a list whose cached count is 0 is
    [INVALID_STATION], without a look at the packets; when the count is
    not 0 it is the source station of the first packet: the front of
    the sequence of a vehicle list, the front of the bucket of the least
    key of a station list.  When the cached count is the sum of the
    counts of the packets (and no bucket of the map is empty), a count
    other than 0 means that this first packet exists, so [Source]
    always returns a station.  The source station of a packet is its
    field [source_st]. *)
Theorem Source_guarded (INVALID_STATION : StationID)
    (v : VehicleCargoList.t) (s : StationCargoList.t) :
  (forall cp, CargoPacket.SourceStation cp = CargoPacket.source_st cp) /\
  (VehicleCargoList.count v = 0 ->
     VehicleCargoList.Source INVALID_STATION v = Some INVALID_STATION) /\
  (VehicleCargoList.count v <> 0 ->
     forall cp rest, VehicleCargoList.packets v = cp :: rest ->
       VehicleCargoList.Source INVALID_STATION v = Some (CargoPacket.SourceStation cp)) /\
  (VehicleCargoList.count v <> 0 -> VehicleCargoList.count_cached v ->
     exists cp rest,
       VehicleCargoList.packets v = cp :: rest /\
       VehicleCargoList.Source INVALID_STATION v = Some (CargoPacket.SourceStation cp)) /\
  (StationCargoList.count s = 0 ->
     StationCargoList.Source INVALID_STATION s = Some INVALID_STATION) /\
  (StationCargoList.count s <> 0 ->
     forall key cp rest more,
       StationCargoList.packets s = (key, cp :: rest) :: more ->
       StationCargoList.Source INVALID_STATION s = Some (CargoPacket.SourceStation cp)) /\
  (StationCargoList.count s <> 0 -> StationCargoList.count_cached s ->
   MultiMap.well_formed (StationCargoList.packets s) ->
     exists key cp rest more,
       StationCargoList.packets s = (key, cp :: rest) :: more /\
       (forall k bucket,
          MultiMap.find k (StationCargoList.packets s) = Some bucket -> key <= k) /\
       StationCargoList.Source INVALID_STATION s = Some (CargoPacket.SourceStation cp)).
Proof.
  split; [intros cp; reflexivity |].
  split; [| split; [| split; [| split; [| split]]]].
  - intros H. unfold VehicleCargoList.Source. rewrite H. reflexivity.
  - intros H cp rest Hp. unfold VehicleCargoList.Source.
    destruct (Z.eqb_spec (VehicleCargoList.count v) 0) as [E | _]; [contradiction |].
    rewrite Hp. reflexivity.
  - intros H Hc. unfold VehicleCargoList.count_cached in Hc.
    destruct (packets_count_nil_free (VehicleCargoList.packets v)) as [cp [rest Hp]];
      [rewrite <- Hc; exact H |].
    exists cp, rest. split; [exact Hp |].
    unfold VehicleCargoList.Source.
    destruct (Z.eqb_spec (VehicleCargoList.count v) 0) as [E | _]; [contradiction |].
    rewrite Hp. reflexivity.
  - intros H. unfold StationCargoList.Source. rewrite H. reflexivity.
  - intros H key cp rest more Hp. unfold StationCargoList.Source.
    destruct (Z.eqb_spec (StationCargoList.count s) 0) as [E | _]; [contradiction |].
    rewrite Hp. reflexivity.
  - intros H Hc Hwf. unfold StationCargoList.count_cached in Hc.
    destruct (total_count_nil_free (StationCargoList.packets s))
      as [key [bucket [more Hp]]]; [rewrite <- Hc; exact H |].
    assert (Hne : bucket <> []).
    { apply (find_bucket_nonempty _ Hwf key). rewrite Hp. simpl.
      rewrite Z.eqb_refl. reflexivity. }
    destruct bucket as [| cp rest]; [contradiction Hne; reflexivity |].
    exists key, cp, rest, more. split; [exact Hp |]. split.
    + intros k b Hf. destruct Hwf as [Hkeys _]. rewrite Hp in Hkeys, Hf.
      simpl in Hkeys, Hf. destruct Hkeys as [_ Hmore].
      destruct (Z.eqb_spec key k) as [E | _]; [lia |].
      pose proof (find_key_above more key k b Hmore Hf). lia.
    + unfold StationCargoList.Source.
      destruct (Z.eqb_spec (StationCargoList.count s) 0) as [E | _]; [contradiction |].
      rewrite Hp. reflexivity.
Qed.

Lemma Source_guarded_witness :
  VehicleCargoList.count vehicle_80 <> 0 /\
  VehicleCargoList.count_cached vehicle_80 /\
  StationCargoList.count station_80 <> 0 /\
  StationCargoList.count_cached station_80 /\
  MultiMap.well_formed (StationCargoList.packets station_80) /\
  (exists cp rest,
     VehicleCargoList.packets vehicle_80 = cp :: rest /\
     VehicleCargoList.Source 65535 vehicle_80 = Some (CargoPacket.SourceStation cp)) /\
  (exists key cp rest more,
     StationCargoList.packets station_80 = (key, cp :: rest) :: more /\
     (forall k bucket,
        MultiMap.find k (StationCargoList.packets station_80) = Some bucket -> key <= k) /\
     StationCargoList.Source 65535 station_80 = Some (CargoPacket.SourceStation cp)).
Proof.
  assert (Hv : VehicleCargoList.count vehicle_80 <> 0) by discriminate.
  assert (Hvc : VehicleCargoList.count_cached vehicle_80) by reflexivity.
  assert (Hs : StationCargoList.count station_80 <> 0) by discriminate.
  assert (Hsc : StationCargoList.count_cached station_80) by reflexivity.
  pose proof (proj2 (Source_guarded 65535 vehicle_80 station_80)) as H.
  split; [exact Hv |]. split; [exact Hvc |]. split; [exact Hs |].
  split; [exact Hsc |]. split; [exact station_80_well_formed |].
  split.
  - exact (proj1 (proj2 (proj2 H)) Hv Hvc).
  - exact (proj2 (proj2 (proj2 (proj2 (proj2 H)))) Hs Hsc station_80_well_formed).
Defined.

(** ** The operations of the header and the invariants of the spec *)

(** A chain of three [uint] additions is the sum reduced once. *)
Lemma uint_add_chain (a b c d : Z) :
  MInt.uint_add (MInt.uint_add (MInt.uint_add a b) c) d
    = (a + b + c + d) mod 2 ^ 32.
Proof.
  unfold MInt.uint_add, MInt.to_uint, MInt.wrap_unsigned.
  rewrite (Zplus_mod_idemp_l (a + b) c).
  rewrite (Zplus_mod_idemp_l (a + b + c) d).
  reflexivity.
Qed.

(** What one reduced term gains and another loses cancels in a reduced
    sum. *)
Lemma mod_sum_moved (x y z w : Z) :
  ((x + z) mod 2 ^ 32 + (y - z) mod 2 ^ 32 + w) mod 2 ^ 32
    = (x + y + w) mod 2 ^ 32.
Proof.
  rewrite (Z.mod_eq (x + z) (2 ^ 32)) by discriminate.
  rewrite (Z.mod_eq (y - z) (2 ^ 32)) by discriminate.
  replace (x + z - 2 ^ 32 * ((x + z) / 2 ^ 32)
           + (y - z - 2 ^ 32 * ((y - z) / 2 ^ 32)) + w)
    with (x + y + w + (- ((x + z) / 2 ^ 32) - (y - z) / 2 ^ 32) * 2 ^ 32) by ring.
  apply Z_mod_plus_full.
Qed.

(** [Keep] keeps the condition of [AssertCountConsistency], in the
    [uint] arithmetic in which the condition is evaluated. *)
Lemma Keep_keeps_AssertCountConsistency (l l' : VehicleCargoList.t)
    (from : MoveToAction) (max_move : Z) :
  VehicleCargoList.AssertCountConsistency l = true ->
  VehicleCargoList.Keep l from max_move = Some l' ->
  VehicleCargoList.AssertCountConsistency l' = true.
Proof.
  unfold VehicleCargoList.AssertCountConsistency, VehicleCargoList.Keep.
  intros Hl Hk.
  apply Z.eqb_eq in Hl. apply Z.eqb_eq.
  rewrite uint_add_chain in Hl |- *.
  unfold VehicleCargoList.count in *.
  destruct l as [base fs [t d k ld]].
  destruct from; simpl in Hk; try discriminate Hk;
    injection Hk as Hk; subst l'; simpl in Hl |- *; rewrite <- Hl;
    set (m := MInt.min _ max_move);
    unfold MInt.uint_add, MInt.uint_sub, MInt.to_uint, MInt.wrap_unsigned;
    change (Z.pow_pos 2 32) with (2 ^ 32).
  - (* from = MTA_DELIVER *)
    replace ((k + m) mod 2 ^ 32 + (d - m) mod 2 ^ 32 + t + ld)
      with ((k + m) mod 2 ^ 32 + (d - m) mod 2 ^ 32 + (t + ld)) by ring.
    rewrite mod_sum_moved. f_equal. ring.
  - (* from = MTA_LOAD *)
    replace ((k + m) mod 2 ^ 32 + d + t + (ld - m) mod 2 ^ 32)
      with ((k + m) mod 2 ^ 32 + (ld - m) mod 2 ^ 32 + (d + t)) by ring.
    rewrite mod_sum_moved. f_equal. ring.
Qed.

(** [KeepAll] establishes the condition from any cells. *)
Lemma KeepAll_establishes_AssertCountConsistency (l : VehicleCargoList.t) :
  MInt.is_uint (VehicleCargoList.count l) ->
  VehicleCargoList.AssertCountConsistency (VehicleCargoList.KeepAll l) = true.
Proof.
  intros Hc.
  unfold VehicleCargoList.AssertCountConsistency. simpl.
  unfold VehicleCargoList.count in *. simpl.
  unfold MInt.is_uint in Hc.
  set (n := CargoList.count _) in *.
  rewrite (uint_add_exact n 0) by lia.
  rewrite (uint_add_exact (n + 0) 0) by lia.
  rewrite (uint_add_exact (n + 0 + 0) 0) by lia.
  apply Z.eqb_eq. lia.
Qed.

(** [TryMerge] keeps the count of [this] between 1 and [MAX_COUNT]. *)
Lemma TryMerge_count_in_range (p q : CargoPacket.t) :
  CargoPacket.well_typed p -> CargoPacket.well_typed q ->
  1 <= CargoPacket.count p ->
  1 <= CargoPacket.count (snd (fst (CargoPacket.TryMerge p q))) <= CargoPacket.MAX_COUNT.
Proof.
  intros [Hp _] [Hq _] H1.
  unfold CargoPacket.TryMerge.
  rewrite (int_add_uint16 _ _ Hp Hq).
  unfold CargoPacket.MAX_COUNT, MInt.is_uint16 in *.
  destruct (Z.gtb_spec (CargoPacket.count p + CargoPacket.count q) MInt.UINT16_MAX) as [Hgt | Hle];
    simpl.
  - lia.
  - rewrite to_uint16_small by (unfold MInt.is_uint16; lia). lia.
Qed.

(** A [Split] of at least one unit leaves both pieces with a count
    between 1 and [MAX_COUNT], and the counts of the pieces add up to
    the count before. *)
Lemma Split_counts (cp kept carved : CargoPacket.t) (new_size : Z) :
  CargoPacket.well_typed cp -> 1 <= new_size ->
  CargoPacket.Split cp new_size = Some (kept, carved) ->
  1 <= CargoPacket.count kept <= CargoPacket.MAX_COUNT /\
  1 <= CargoPacket.count carved <= CargoPacket.MAX_COUNT /\
  CargoPacket.count kept + CargoPacket.count carved = CargoPacket.count cp.
Proof.
  intros [Hc _] Hn. unfold CargoPacket.Split.
  destruct (Z.geb_spec new_size (CargoPacket.count cp)) as [Hge | Hlt]; [discriminate |].
  destruct (CargoPacket.FeederShare_part cp new_size) as [fs |]; [| discriminate].
  intros H. injection H as Hk Hv. subst kept carved. simpl.
  unfold CargoPacket.MAX_COUNT, MInt.is_uint16 in *.
  rewrite !to_uint16_small by (unfold MInt.is_uint16; lia). lia.
Qed.

(** ** Evaluations *)

(** Scenario A: the two packets are merged into one packet of 80
    units that carries both feeder shares. *)
Example TryMerge_scenario_A :
  CargoPacket.TryMerge packet_50 packet_30
    = (true, CargoPacket.mk 160 80 3 (mkCargoSource 0 7) 1 1000 3, None).
Proof. reflexivity. Qed.

(** Scenario B: the packets stay apart. *)
Example TryMerge_scenario_B :
  CargoPacket.TryMerge packet_65000 packet_1000
    = (false, packet_65000, Some packet_1000).
Proof. reflexivity. Qed.

Example FeederShare_part_of_packet_50 :
  CargoPacket.FeederShare_part packet_50 20 = Some 48.
Proof. reflexivity. Qed.

Example Split_packet_50 :
  CargoPacket.Split packet_50 20
    = Some (CargoPacket.mk 72 30 3 (mkCargoSource 0 7) 1 1000 3,
            CargoPacket.mk 48 20 3 (mkCargoSource 0 7) 1 1000 3).
Proof. reflexivity. Qed.

Example Keep_deliver_20 :
  VehicleCargoList.Keep vehicle_80 MTA_DELIVER 20
    = Some (VehicleCargoList.mk (CargoList.mk 80 240 [packet_50; packet_30]) 160
              (VehicleCargoList.mkCounts 0 10 70 0)).
Proof. reflexivity. Qed.

Example Keep_clamps_to_the_cell :
  VehicleCargoList.Keep vehicle_80 MTA_DELIVER MInt.UINT_MAX
    = Some (VehicleCargoList.mk (CargoList.mk 80 240 [packet_50; packet_30]) 160
              (VehicleCargoList.mkCounts 0 0 80 0)).
Proof. reflexivity. Qed.

Example Keep_transfer_asserts :
  VehicleCargoList.Keep vehicle_80 MTA_TRANSFER 20 = None.
Proof. reflexivity. Qed.

Example DaysInTransit_vehicle_80 :
  VehicleCargoList.DaysInTransit vehicle_80 = Some 3.
Proof. reflexivity. Qed.

Example HasCargoFor_unknown_stations :
  StationCargoList.HasCargoFor 65535 station_80 [7; 8] = false.
Proof. reflexivity. Qed.

Example HasCargoFor_second_of_stack :
  StationCargoList.HasCargoFor 65535 station_80 [7; 9] = true.
Proof. reflexivity. Qed.

Example Source_station_80 :
  StationCargoList.Source 65535 station_80 = Some 1.
Proof. reflexivity. Qed.

(** * Further properties of cargopacket.h *)

(** ** The counts of a vehicle cargo list *)

Lemma AssertCountConsistency_sum (l : VehicleCargoList.t) :
  VehicleCargoList.AssertCountConsistency l = true ->
  (VehicleCargoList.ActionCount l MTA_KEEP + VehicleCargoList.ActionCount l MTA_DELIVER
   + VehicleCargoList.ActionCount l MTA_TRANSFER + VehicleCargoList.ActionCount l MTA_LOAD)
    mod 2 ^ 32 = VehicleCargoList.count l.
Proof.
  unfold VehicleCargoList.AssertCountConsistency. intros H.
  apply Z.eqb_eq in H. rewrite uint_add_chain in H. exact H.
Qed.

(** X1. Whenever the condition of [AssertCountConsistency] holds, the
    cargo to unload and the cargo to remain add up (as [uint] values) to
    the total, the cargo on board and the reserved cargo add up to the
    total, and the cargo on board is the cargo to unload plus the cargo
    to keep. *)
Theorem counts_add_up_under_assertion (l : VehicleCargoList.t) :
  VehicleCargoList.AssertCountConsistency l = true ->
  MInt.uint_add (VehicleCargoList.UnloadCount l) (VehicleCargoList.RemainingCount l)
    = VehicleCargoList.TotalCount l /\
  MInt.uint_add (VehicleCargoList.StoredCount l) (VehicleCargoList.ReservedCount l)
    = VehicleCargoList.TotalCount l /\
  MInt.uint_add (VehicleCargoList.UnloadCount l) (VehicleCargoList.ActionCount l MTA_KEEP)
    = VehicleCargoList.StoredCount l.
Proof.
  intros H. pose proof (AssertCountConsistency_sum l H) as Hs.
  unfold VehicleCargoList.UnloadCount, VehicleCargoList.RemainingCount,
    VehicleCargoList.StoredCount, VehicleCargoList.ReservedCount,
    VehicleCargoList.TotalCount, VehicleCargoList.ActionCount in *.
  set (t := VehicleCargoList.get _ MTA_TRANSFER) in *.
  set (d := VehicleCargoList.get _ MTA_DELIVER) in *.
  set (k := VehicleCargoList.get _ MTA_KEEP) in *.
  set (ld := VehicleCargoList.get _ MTA_LOAD) in *.
  rewrite <- Hs.
  unfold MInt.uint_add, MInt.uint_sub, MInt.to_uint, MInt.wrap_unsigned.
  split; [| split].
  - rewrite <- Zplus_mod. f_equal. ring.
  - rewrite Zplus_mod_idemp_l.
    replace ((k + d + t + ld) mod 2 ^ 32 - ld + ld)
      with ((k + d + t + ld) mod 2 ^ 32) by ring.
    apply Z.mod_mod. discriminate.
  - rewrite Zplus_mod_idemp_l. rewrite Zminus_mod_idemp_l. f_equal. ring.
Qed.

Lemma vehicle_80_consistent : VehicleCargoList.AssertCountConsistency vehicle_80 = true.
Proof. reflexivity. Defined.

Lemma counts_add_up_under_assertion_witness :
  VehicleCargoList.AssertCountConsistency vehicle_80 = true /\
  MInt.uint_add (VehicleCargoList.UnloadCount vehicle_80)
                (VehicleCargoList.RemainingCount vehicle_80)
    = VehicleCargoList.TotalCount vehicle_80.
Proof.
  split; [exact vehicle_80_consistent |].
  exact (proj1 (counts_add_up_under_assertion vehicle_80 vehicle_80_consistent)).
Defined.

Lemma vehicle_80_well_typed : VehicleCargoList.well_typed vehicle_80.
Proof.
  unfold VehicleCargoList.well_typed, CargoList.well_typed, MInt.is_uint,
    MInt.UINT_MAX, vehicle_80.
  simpl. split; [lia |]. intros a; destruct a; simpl; lia.
Defined.

Lemma vehicle_80_partitioned : VehicleCargoList.partitioned vehicle_80.
Proof. reflexivity. Defined.

(** X2. When the four cells partition the cached count, none of the
    count queries wraps: as integers, the cargo on board is the count
    less the reserved cargo and is the cargo to unload plus the cargo to
    keep, and the cargo to unload plus the cargo to remain is the
    total. *)
Theorem counts_exact_when_partitioned (l : VehicleCargoList.t) :
  VehicleCargoList.well_typed l -> VehicleCargoList.partitioned l ->
  VehicleCargoList.StoredCount l
    = VehicleCargoList.TotalCount l - VehicleCargoList.ReservedCount l /\
  VehicleCargoList.StoredCount l
    = VehicleCargoList.UnloadCount l + VehicleCargoList.ActionCount l MTA_KEEP /\
  VehicleCargoList.UnloadCount l + VehicleCargoList.RemainingCount l
    = VehicleCargoList.TotalCount l /\
  0 <= VehicleCargoList.StoredCount l <= VehicleCargoList.TotalCount l /\
  0 <= VehicleCargoList.UnloadCount l <= VehicleCargoList.TotalCount l.
Proof.
  intros [[Hc _] Ha] Hp.
  unfold VehicleCargoList.partitioned in Hp.
  pose proof (Ha MTA_TRANSFER) as Ht. pose proof (Ha MTA_DELIVER) as Hd.
  pose proof (Ha MTA_KEEP) as Hk. pose proof (Ha MTA_LOAD) as Hl.
  unfold VehicleCargoList.UnloadCount, VehicleCargoList.RemainingCount,
    VehicleCargoList.StoredCount, VehicleCargoList.ReservedCount,
    VehicleCargoList.TotalCount, VehicleCargoList.ActionCount,
    VehicleCargoList.count in *.
  unfold MInt.is_uint in *.
  set (t := VehicleCargoList.get _ MTA_TRANSFER) in *.
  set (d := VehicleCargoList.get _ MTA_DELIVER) in *.
  set (k := VehicleCargoList.get _ MTA_KEEP) in *.
  set (ld := VehicleCargoList.get _ MTA_LOAD) in *.
  set (n := CargoList.count _) in *.
  rewrite (uint_add_exact t d) by lia.
  rewrite (uint_add_exact k ld) by lia.
  rewrite (uint_sub_exact n ld) by (unfold MInt.is_uint; lia).
  lia.
Qed.

Lemma counts_exact_when_partitioned_witness :
  VehicleCargoList.well_typed vehicle_80 /\ VehicleCargoList.partitioned vehicle_80 /\
  VehicleCargoList.UnloadCount vehicle_80 + VehicleCargoList.RemainingCount vehicle_80
    = VehicleCargoList.TotalCount vehicle_80.
Proof.
  split; [exact vehicle_80_well_typed |]. split; [exact vehicle_80_partitioned |].
  exact (proj1 (proj2 (proj2 (counts_exact_when_partitioned vehicle_80
                                vehicle_80_well_typed vehicle_80_partitioned)))).
Defined.

(** ** Sequences of [Keep] and [KeepAll] *)

Lemma uint_add_assoc (k a b : Z) :
  MInt.uint_add (MInt.uint_add k a) b = MInt.uint_add k (a + b).
Proof.
  unfold MInt.uint_add, MInt.to_uint, MInt.wrap_unsigned.
  rewrite Zplus_mod_idemp_l. f_equal. ring.
Qed.

Lemma Keep_cells (c m1 m2 : Z) :
  MInt.is_uint c -> 0 <= m1 -> 0 <= m2 ->
  MInt.uint_sub c (MInt.min c m1) = c - Z.min c m1 /\
  MInt.min c m1 + MInt.min (c - Z.min c m1) m2 = MInt.min c (m1 + m2) /\
  MInt.uint_sub (c - Z.min c m1) (MInt.min (c - Z.min c m1) m2)
    = MInt.uint_sub c (MInt.min c (m1 + m2)).
Proof.
  intros Hc H1 H2. rewrite !min_spec.
  assert (E : MInt.uint_sub c (Z.min c m1) = c - Z.min c m1).
  { apply uint_sub_exact; [exact Hc | unfold MInt.is_uint in Hc; lia]. }
  split; [exact E |]. split; [lia |].
  unfold MInt.uint_sub. f_equal. lia.
Qed.

(** X3. Two calls of [Keep] on the same cell, one after the other, do
    what one call with the sum of the two limits does. *)
Theorem Keep_twice (l l1 : VehicleCargoList.t) (from : MoveToAction) (m1 m2 : Z) :
  VehicleCargoList.well_typed l ->
  0 <= m1 -> 0 <= m2 -> MInt.is_uint (m1 + m2) ->
  VehicleCargoList.Keep l from m1 = Some l1 ->
  VehicleCargoList.Keep l1 from m2 = VehicleCargoList.Keep l from (m1 + m2).
Proof.
  intros [_ Ha] H1 H2 _ Hk.
  destruct l as [base fs [t d k ld]].
  unfold VehicleCargoList.Keep in *.
  destruct from; simpl in Hk; try discriminate Hk;
    injection Hk as Hk; subst l1; simpl.
  - pose proof (Ha MTA_DELIVER) as Hd. simpl in Hd.
    destruct (Keep_cells d m1 m2 Hd H1 H2) as [E1 [E2 E3]].
    rewrite E1, E3, uint_add_assoc, E2. reflexivity.
  - pose proof (Ha MTA_LOAD) as Hl. simpl in Hl.
    destruct (Keep_cells ld m1 m2 Hl H1 H2) as [E1 [E2 E3]].
    rewrite E1, E3, uint_add_assoc, E2. reflexivity.
Qed.

Lemma Keep_twice_witness :
  VehicleCargoList.well_typed vehicle_80 /\ MInt.is_uint (20 + 5) /\
  VehicleCargoList.Keep vehicle_80 MTA_DELIVER 20
    = Some (VehicleCargoList.mk (CargoList.mk 80 240 [packet_50; packet_30]) 160
              (VehicleCargoList.mkCounts 0 10 70 0)) /\
  VehicleCargoList.Keep
    (VehicleCargoList.mk (CargoList.mk 80 240 [packet_50; packet_30]) 160
       (VehicleCargoList.mkCounts 0 10 70 0)) MTA_DELIVER 5
    = VehicleCargoList.Keep vehicle_80 MTA_DELIVER (20 + 5).
Proof.
  assert (Hm : MInt.is_uint (20 + 5)) by (unfold MInt.is_uint, MInt.UINT_MAX; lia).
  assert (Hk : VehicleCargoList.Keep vehicle_80 MTA_DELIVER 20
               = Some (VehicleCargoList.mk (CargoList.mk 80 240 [packet_50; packet_30]) 160
                         (VehicleCargoList.mkCounts 0 10 70 0))) by reflexivity.
  split; [exact vehicle_80_well_typed |]. split; [exact Hm |]. split; [exact Hk |].
  apply (Keep_twice vehicle_80 _ MTA_DELIVER 20 5 vehicle_80_well_typed);
    [lia | lia | exact Hm | exact Hk].
Defined.

(** X4. Keeping delivered cargo and keeping reserved cargo can be done
    in either order: the two calls of [Keep] commute. *)
Theorem Keep_deliver_load_commute (l : VehicleCargoList.t) (m1 m2 : Z) :
  match VehicleCargoList.Keep l MTA_DELIVER m1 with
  | Some l1 => VehicleCargoList.Keep l1 MTA_LOAD m2
  | None => None
  end
  = match VehicleCargoList.Keep l MTA_LOAD m2 with
    | Some l2 => VehicleCargoList.Keep l2 MTA_DELIVER m1
    | None => None
    end.
Proof.
  destruct l as [base fs [t d k ld]].
  unfold VehicleCargoList.Keep. simpl.
  rewrite !uint_add_assoc.
  rewrite (Z.add_comm (MInt.min d m1) (MInt.min ld m2)). reflexivity.
Qed.

(** X5. [Keep] with a limit that covers the cell, as the default
    [UINT_MAX] always does, empties the cell.  After [Keep (MTA_LOAD)]
    no cargo is reserved and the cargo on board is the total; after
    [Keep (MTA_DELIVER)] only the cargo to transfer is left to unload. *)
Theorem Keep_whole_cell (l : VehicleCargoList.t) (from : MoveToAction) (max_move : Z) :
  VehicleCargoList.well_typed l ->
  from = MTA_DELIVER \/ from = MTA_LOAD ->
  VehicleCargoList.ActionCount l from <= max_move ->
  exists l',
    VehicleCargoList.Keep l from max_move = Some l' /\
    VehicleCargoList.ActionCount l' from = 0 /\
    VehicleCargoList.ActionCount l' MTA_KEEP
      = MInt.uint_add (VehicleCargoList.ActionCount l MTA_KEEP)
                      (VehicleCargoList.ActionCount l from) /\
    (from = MTA_LOAD ->
       VehicleCargoList.ReservedCount l' = 0 /\
       VehicleCargoList.StoredCount l' = VehicleCargoList.TotalCount l') /\
    (from = MTA_DELIVER ->
       VehicleCargoList.UnloadCount l' = VehicleCargoList.ActionCount l MTA_TRANSFER).
Proof.
  intros [[Hc _] Ha] Hfrom Hmax.
  destruct l as [base fs [t d k ld]].
  unfold VehicleCargoList.ActionCount, VehicleCargoList.ReservedCount,
    VehicleCargoList.StoredCount, VehicleCargoList.TotalCount,
    VehicleCargoList.UnloadCount, VehicleCargoList.count, VehicleCargoList.Keep in *.
  simpl in Hc.
  pose proof (Ha MTA_TRANSFER) as Ht. pose proof (Ha MTA_DELIVER) as Hd.
  pose proof (Ha MTA_LOAD) as Hl. simpl in Ht, Hd, Hl.
  destruct Hfrom; subst from; simpl in Hmax |- *; rewrite min_spec;
    rewrite Z.min_l by exact Hmax; eexists; (split; [reflexivity |]); simpl;
    unfold MInt.uint_sub; rewrite Z.sub_diag; (split; [reflexivity |]);
    (split; [reflexivity |]).
  - split; [intros E; discriminate E | intros _].
    change (MInt.to_uint 0) with 0. unfold MInt.uint_add.
    rewrite Z.add_0_r. apply to_uint_small. exact Ht.
  - split; [intros _ | intros E; discriminate E].
    split; [reflexivity |].
    change (MInt.to_uint 0) with 0. rewrite Z.sub_0_r. apply to_uint_small. exact Hc.
Qed.

Lemma Keep_whole_cell_witness :
  VehicleCargoList.well_typed vehicle_80 /\
  VehicleCargoList.ActionCount vehicle_80 MTA_DELIVER <= MInt.UINT_MAX /\
  exists l',
    VehicleCargoList.Keep vehicle_80 MTA_DELIVER MInt.UINT_MAX = Some l' /\
    VehicleCargoList.ActionCount l' MTA_DELIVER = 0.
Proof.
  assert (Hm : VehicleCargoList.ActionCount vehicle_80 MTA_DELIVER <= MInt.UINT_MAX)
    by (unfold MInt.UINT_MAX; simpl; lia).
  split; [exact vehicle_80_well_typed |]. split; [exact Hm |].
  destruct (Keep_whole_cell vehicle_80 MTA_DELIVER MInt.UINT_MAX
              vehicle_80_well_typed (or_introl eq_refl) Hm) as [l' [Hk [Hz _]]].
  exists l'. split; [exact Hk | exact Hz].
Defined.

(** X6. [KeepAll] overrides what [Keep] did before it and is
    idempotent; after [KeepAll] nothing is left to unload and nothing is
    reserved, everything remains and is on board, and a further [Keep]
    has nothing to move. *)
Theorem KeepAll_absorbs (l : VehicleCargoList.t) (from : MoveToAction) (max_move : Z) :
  MInt.is_uint (VehicleCargoList.count l) -> MInt.is_uint max_move ->
  VehicleCargoList.KeepAll (VehicleCargoList.KeepAll l) = VehicleCargoList.KeepAll l /\
  (forall l', VehicleCargoList.Keep l from max_move = Some l' ->
     VehicleCargoList.KeepAll l' = VehicleCargoList.KeepAll l) /\
  (from = MTA_DELIVER \/ from = MTA_LOAD ->
     VehicleCargoList.Keep (VehicleCargoList.KeepAll l) from max_move
       = Some (VehicleCargoList.KeepAll l)) /\
  VehicleCargoList.UnloadCount (VehicleCargoList.KeepAll l) = 0 /\
  VehicleCargoList.ReservedCount (VehicleCargoList.KeepAll l) = 0 /\
  VehicleCargoList.RemainingCount (VehicleCargoList.KeepAll l)
    = VehicleCargoList.TotalCount l /\
  VehicleCargoList.StoredCount (VehicleCargoList.KeepAll l)
    = VehicleCargoList.TotalCount l.
Proof.
  intros Hc Hm.
  destruct l as [base fs [t d k ld]].
  unfold VehicleCargoList.count in Hc. simpl in Hc.
  assert (Hmin : MInt.min 0 max_move = 0).
  { rewrite min_spec. unfold MInt.is_uint in Hm. lia. }
  assert (Hn : MInt.to_uint (CargoList.count base) = CargoList.count base)
    by (apply to_uint_small; exact Hc).
  split; [reflexivity |].
  split.
  { intros l' Hk. unfold VehicleCargoList.Keep in Hk.
    destruct from; simpl in Hk; try discriminate Hk;
      injection Hk as Hk; subst l'; reflexivity. }
  split.
  { intros Hfrom. unfold VehicleCargoList.Keep, VehicleCargoList.KeepAll,
      VehicleCargoList.count.
    destruct Hfrom; subst from; simpl; rewrite Hmin;
      change (MInt.uint_sub 0 0) with 0; unfold MInt.uint_add;
      rewrite Z.add_0_r, Hn; reflexivity. }
  unfold VehicleCargoList.UnloadCount, VehicleCargoList.ReservedCount,
    VehicleCargoList.RemainingCount, VehicleCargoList.StoredCount,
    VehicleCargoList.TotalCount, VehicleCargoList.count. simpl.
  split; [reflexivity |]. split; [reflexivity |].
  unfold MInt.uint_add, MInt.uint_sub, VehicleCargoList.count.
  cbn [VehicleCargoList.parent].
  rewrite Z.add_0_r, Z.sub_0_r, Hn. split; reflexivity.
Qed.

Lemma KeepAll_absorbs_witness :
  MInt.is_uint (VehicleCargoList.count vehicle_80) /\ MInt.is_uint 20 /\
  VehicleCargoList.Keep (VehicleCargoList.KeepAll vehicle_80) MTA_LOAD 20
    = Some (VehicleCargoList.KeepAll vehicle_80).
Proof.
  assert (Hc : MInt.is_uint (VehicleCargoList.count vehicle_80))
    by exact (proj1 (proj1 vehicle_80_well_typed)).
  assert (Hm : MInt.is_uint 20) by (unfold MInt.is_uint, MInt.UINT_MAX; lia).
  split; [exact Hc |]. split; [exact Hm |].
  exact (proj1 (proj2 (proj2 (KeepAll_absorbs vehicle_80 MTA_LOAD 20 Hc Hm)))
           (or_intror eq_refl)).
Defined.

(** X7. [Keep] with a limit of 0, or on a cell that holds nothing,
    leaves the list as it is. *)
Theorem Keep_nothing (l : VehicleCargoList.t) (from : MoveToAction) (max_move : Z) :
  VehicleCargoList.well_typed l -> MInt.is_uint max_move ->
  from = MTA_DELIVER \/ from = MTA_LOAD ->
  max_move = 0 \/ VehicleCargoList.ActionCount l from = 0 ->
  VehicleCargoList.Keep l from max_move = Some l.
Proof.
  intros [_ Ha] Hm Hfrom Hzero.
  destruct l as [base fs [t d k ld]].
  pose proof (Ha MTA_DELIVER) as Hd. pose proof (Ha MTA_KEEP) as Hk.
  pose proof (Ha MTA_LOAD) as Hl. simpl in Hd, Hk, Hl.
  unfold VehicleCargoList.ActionCount, VehicleCargoList.Keep in *.
  unfold MInt.is_uint in Hm, Hd, Hl.
  destruct Hfrom; subst from; simpl in Hzero |- *; rewrite min_spec.
  - replace (Z.min d max_move) with 0 by lia.
    unfold MInt.uint_sub, MInt.uint_add. rewrite Z.sub_0_r, Z.add_0_r.
    rewrite !to_uint_small by assumption. reflexivity.
  - replace (Z.min ld max_move) with 0 by lia.
    unfold MInt.uint_sub, MInt.uint_add. rewrite Z.sub_0_r, Z.add_0_r.
    rewrite !to_uint_small by assumption. reflexivity.
Qed.

Lemma Keep_nothing_witness :
  VehicleCargoList.well_typed vehicle_80 /\ MInt.is_uint 9 /\
  VehicleCargoList.ActionCount vehicle_80 MTA_LOAD = 0 /\
  VehicleCargoList.Keep vehicle_80 MTA_LOAD 9 = Some vehicle_80.
Proof.
  assert (Hm : MInt.is_uint 9) by (unfold MInt.is_uint, MInt.UINT_MAX; lia).
  split; [exact vehicle_80_well_typed |]. split; [exact Hm |].
  split; [reflexivity |].
  exact (Keep_nothing vehicle_80 MTA_LOAD 9 vehicle_80_well_typed Hm
           (or_intror eq_refl) (or_intror eq_refl)).
Defined.

(** ** The cell shared by the load place and the next station *)

(** X8. The load place and the next station of a packet are one cell:
    either setter followed by its own getter gives the value back, a
    station identifier that was set can be read as the load place, and a
    tile that was set is read as a station identifier reduced to 16
    bits.  The later setter wins, and neither setter touches the count,
    the feeder share or the source station. *)
Theorem load_place_and_next_station_share_a_cell
    (cp : CargoPacket.t) (station : StationID) (tile : TileIndex) :
  MInt.is_uint16 station -> MInt.is_uint tile ->
  CargoPacket.NextStation (CargoPacket.SetNextStation cp station) = station /\
  CargoPacket.LoadedAtXY (CargoPacket.SetLoadPlace cp tile) = tile /\
  CargoPacket.LoadedAtXY (CargoPacket.SetNextStation cp station) = station /\
  CargoPacket.NextStation (CargoPacket.SetLoadPlace cp tile) = tile mod 65536 /\
  CargoPacket.SetLoadPlace (CargoPacket.SetNextStation cp station) tile
    = CargoPacket.SetLoadPlace cp tile /\
  CargoPacket.SetNextStation (CargoPacket.SetLoadPlace cp tile) station
    = CargoPacket.SetNextStation cp station /\
  CargoPacket.Count (CargoPacket.SetNextStation cp station) = CargoPacket.Count cp /\
  CargoPacket.Count (CargoPacket.SetLoadPlace cp tile) = CargoPacket.Count cp /\
  CargoPacket.FeederShare (CargoPacket.SetNextStation cp station)
    = CargoPacket.FeederShare cp /\
  CargoPacket.FeederShare (CargoPacket.SetLoadPlace cp tile)
    = CargoPacket.FeederShare cp /\
  CargoPacket.SourceStation (CargoPacket.SetNextStation cp station)
    = CargoPacket.SourceStation cp /\
  CargoPacket.SourceStation (CargoPacket.SetLoadPlace cp tile)
    = CargoPacket.SourceStation cp.
Proof.
  intros Hs _.
  split.
  { unfold CargoPacket.NextStation, CargoPacket.next_station. simpl.
    apply to_uint16_small. exact Hs. }
  repeat split.
Qed.

Lemma load_place_and_next_station_share_a_cell_witness :
  MInt.is_uint16 9 /\ MInt.is_uint 70000 /\
  CargoPacket.NextStation (CargoPacket.SetNextStation packet_50 9) = 9 /\
  CargoPacket.NextStation (CargoPacket.SetLoadPlace packet_50 70000) = 70000 mod 65536.
Proof.
  assert (Hs : MInt.is_uint16 9) by (unfold MInt.is_uint16, MInt.UINT16_MAX; lia).
  assert (Ht : MInt.is_uint 70000) by (unfold MInt.is_uint, MInt.UINT_MAX; lia).
  pose proof (load_place_and_next_station_share_a_cell packet_50 9 70000 Hs Ht) as H.
  split; [exact Hs |]. split; [exact Ht |].
  split; [exact (proj1 H) |].
  exact (proj1 (proj2 (proj2 (proj2 H)))).
Defined.

(** ** Parts of a feeder share *)

Lemma saturate_nonneg (x : Z) : 0 <= x -> 0 <= saturate x <= x.
Proof.
  unfold saturate, INT64_MIN, INT64_MAX. lia.
Qed.

Lemma saturate_nonpos (x : Z) : x <= 0 -> x <= saturate x <= 0.
Proof.
  unfold saturate, INT64_MIN, INT64_MAX. lia.
Qed.

Lemma saturate_monotone (x y : Z) : x <= y -> saturate x <= saturate y.
Proof.
  unfold saturate. lia.
Qed.

Lemma div_part_le_whole (fs part c : Z) :
  0 <= fs -> 0 <= part <= c -> 0 < c -> 0 <= fs * part / c <= fs.
Proof.
  intros Hfs Hp Hc. split.
  - apply Z.div_pos; [nia | lia].
  - apply Z.div_le_upper_bound; [lia | nia].
Qed.

(** The share of a part of a feeder share that is not negative. *)
Lemma share_of_part_nonneg (fs part c : Z) :
  0 <= fs -> 0 <= part <= c -> 0 < c ->
  Z.quot (saturate (fs * part)) c = saturate (fs * part) / c /\
  0 <= saturate (fs * part) / c <= fs * part / c /\
  fs * part / c <= fs.
Proof.
  intros Hfs Hp Hc.
  destruct (saturate_nonneg (fs * part) ltac:(nia)) as [H0 Hle].
  split; [apply Z.quot_div_nonneg; lia |].
  split; [split; [apply Z.div_pos; lia | apply Z.div_le_mono; lia] |].
  apply div_part_le_whole; lia.
Qed.

(** X9. For a packet of at least one unit and a part of at most its
    count, [FeederShare(part)] returns a share that lies between 0 and
    the feeder share of the packet, on the side of 0 on which the
    feeder share lies, whether the product saturates or not; the share
    of no units is 0.  When the feeder share is not negative, a larger
    part never gets a smaller share. *)
Theorem FeederShare_part_bounds (cp : CargoPacket.t) (part : Z) :
  1 <= CargoPacket.count cp <= CargoPacket.MAX_COUNT ->
  0 <= part <= CargoPacket.count cp ->
  exists share,
    CargoPacket.FeederShare_part cp part = Some share /\
    (0 <= CargoPacket.feeder_share cp -> 0 <= share <= CargoPacket.feeder_share cp) /\
    (CargoPacket.feeder_share cp <= 0 -> CargoPacket.feeder_share cp <= share <= 0) /\
    CargoPacket.FeederShare_part cp 0 = Some 0 /\
    (0 <= CargoPacket.feeder_share cp ->
     forall smaller, 0 <= smaller <= part ->
       exists less,
         CargoPacket.FeederShare_part cp smaller = Some less /\ less <= share).
Proof.
  intros Hc Hp.
  unfold CargoPacket.MAX_COUNT, MInt.UINT16_MAX in Hc.
  assert (Hne : CargoPacket.count cp <> 0) by lia.
  set (c := CargoPacket.count cp) in *.
  set (fs := CargoPacket.feeder_share cp) in *.
  exists (Z.quot (saturate (fs * part)) c).
  split; [apply FeederShare_part_saturated; [exact Hne | lia] |].
  split; [| split; [| split]].
  - intros Hfs.
    destruct (share_of_part_nonneg fs part c Hfs Hp ltac:(lia)) as [Eq [Hs Hw]].
    rewrite Eq. lia.
  - intros Hfs.
    destruct (saturate_nonpos (fs * part) ltac:(nia)) as [Hle H0].
    replace (saturate (fs * part)) with (- (- saturate (fs * part))) by ring.
    rewrite Z.quot_opp_l by exact Hne.
    rewrite Z.quot_div_nonneg by lia.
    assert (Hd : 0 <= - saturate (fs * part) / c <= - fs).
    { split; [apply Z.div_pos; lia |].
      apply Z.div_le_upper_bound; [lia | nia]. }
    lia.
  - rewrite (FeederShare_part_saturated cp 0 Hne) by lia. fold fs c.
    rewrite Z.mul_0_r.
    change (saturate 0) with 0. rewrite Z.quot_0_l by exact Hne. reflexivity.
  - intros Hfs smaller Hs.
    exists (Z.quot (saturate (fs * smaller)) c).
    split; [apply FeederShare_part_saturated; [exact Hne | lia] |].
    destruct (share_of_part_nonneg fs part c Hfs Hp ltac:(lia)) as [Eq _].
    destruct (share_of_part_nonneg fs smaller c Hfs ltac:(lia) ltac:(lia)) as [Eq' _].
    rewrite Eq, Eq'.
    apply Z.div_le_mono; [lia |]. apply saturate_monotone. nia.
Qed.

Lemma FeederShare_part_bounds_witness :
  1 <= CargoPacket.count packet_large_share <= CargoPacket.MAX_COUNT /\
  0 <= 65535 <= CargoPacket.count packet_large_share /\
  exists share,
    CargoPacket.FeederShare_part packet_large_share 65535 = Some share /\
    (0 <= CargoPacket.feeder_share packet_large_share ->
     0 <= share <= CargoPacket.feeder_share packet_large_share).
Proof.
  assert (H1 : 1 <= CargoPacket.count packet_large_share <= CargoPacket.MAX_COUNT)
    by (unfold CargoPacket.MAX_COUNT, MInt.UINT16_MAX; simpl; lia).
  assert (H2 : 0 <= 65535 <= CargoPacket.count packet_large_share) by (simpl; lia).
  split; [exact H1 |]. split; [exact H2 |].
  destruct (FeederShare_part_bounds packet_large_share 65535 H1 H2)
    as [share [Hs [Hb _]]].
  exists share. split; [exact Hs | exact Hb].
Defined.

(** X10. When the feeder share is not negative, the shares of two
    parts taken one by one never add up to more than the feeder share
    of the packet, whether the products saturate or not; and as long as
    the product of the feeder share and the two parts together fits 64
    bits, they add up to the share of the two parts taken together or to
    one unit of money less. *)
Theorem FeederShare_part_of_two_parts (cp : CargoPacket.t) (a b : Z) :
  1 <= CargoPacket.count cp <= CargoPacket.MAX_COUNT ->
  0 <= CargoPacket.feeder_share cp ->
  0 <= a -> 0 <= b -> a + b <= CargoPacket.count cp ->
  exists sa sb sab,
    CargoPacket.FeederShare_part cp a = Some sa /\
    CargoPacket.FeederShare_part cp b = Some sb /\
    CargoPacket.FeederShare_part cp (a + b) = Some sab /\
    sa + sb <= CargoPacket.feeder_share cp /\
    (CargoPacket.feeder_share cp * (a + b) <= INT64_MAX ->
     sa + sb <= sab <= sa + sb + 1).
Proof.
  intros Hc Hfs Ha Hb Hab.
  unfold CargoPacket.MAX_COUNT, MInt.UINT16_MAX in Hc.
  assert (Hne : CargoPacket.count cp <> 0) by lia.
  set (c := CargoPacket.count cp) in *.
  set (fs := CargoPacket.feeder_share cp) in *.
  assert (Hpos : 0 < c) by lia.
  exists (saturate (fs * a) / c), (saturate (fs * b) / c),
         (saturate (fs * (a + b)) / c).
  destruct (share_of_part_nonneg fs a c Hfs ltac:(lia) Hpos) as [Ea [Hsa _]].
  destruct (share_of_part_nonneg fs b c Hfs ltac:(lia) Hpos) as [Eb [Hsb _]].
  destruct (share_of_part_nonneg fs (a + b) c Hfs ltac:(lia) Hpos) as [Eab [_ Hw]].
  rewrite !(FeederShare_part_saturated cp _ Hne) by lia. fold fs c.
  rewrite Ea, Eb, Eab.
  repeat (split; [reflexivity |]).
  pose proof (Z.div_mod (fs * a) c Hne) as Da.
  pose proof (Z.div_mod (fs * b) c Hne) as Db.
  pose proof (Z.mod_pos_bound (fs * a) c Hpos) as Ma.
  pose proof (Z.mod_pos_bound (fs * b) c Hpos) as Mb.
  assert (Hlow : fs * a / c + fs * b / c <= fs * (a + b) / c).
  { apply Z.div_le_lower_bound; [exact Hpos | nia]. }
  assert (Hhigh : fs * (a + b) / c < fs * a / c + fs * b / c + 2).
  { apply Z.div_lt_upper_bound; [exact Hpos | nia]. }
  split; [lia |].
  intros Hbound.
  assert (Hm : forall part, 0 <= part <= a + b -> saturate (fs * part) = fs * part).
  { intros part Hpart. apply saturate_in_range.
    unfold is_money, INT64_MIN. unfold INT64_MAX in *. nia. }
  rewrite (Hm a), (Hm b), (Hm (a + b)) by lia. lia.
Qed.

Lemma FeederShare_part_of_two_parts_witness :
  1 <= CargoPacket.count packet_50 <= CargoPacket.MAX_COUNT /\
  0 <= CargoPacket.feeder_share packet_50 /\
  20 + 7 <= CargoPacket.count packet_50 /\
  CargoPacket.feeder_share packet_50 * (20 + 7) <= INT64_MAX /\
  exists sa sb sab,
    CargoPacket.FeederShare_part packet_50 20 = Some sa /\
    CargoPacket.FeederShare_part packet_50 7 = Some sb /\
    CargoPacket.FeederShare_part packet_50 (20 + 7) = Some sab /\
    sa + sb <= sab <= sa + sb + 1.
Proof.
  assert (H1 : 1 <= CargoPacket.count packet_50 <= CargoPacket.MAX_COUNT)
    by (unfold CargoPacket.MAX_COUNT, MInt.UINT16_MAX; simpl; lia).
  assert (H2 : 0 <= CargoPacket.feeder_share packet_50) by (simpl; lia).
  assert (H3 : 20 + 7 <= CargoPacket.count packet_50) by (simpl; lia).
  assert (H4 : CargoPacket.feeder_share packet_50 * (20 + 7) <= INT64_MAX)
    by (unfold INT64_MAX; simpl; lia).
  split; [exact H1 |]. split; [exact H2 |]. split; [exact H3 |]. split; [exact H4 |].
  destruct (FeederShare_part_of_two_parts packet_50 20 7 H1 H2
              ltac:(lia) ltac:(lia) H3) as [sa [sb [sab [Ea [Eb [Eab [_ Hb]]]]]]].
  exists sa, sb, sab. repeat (split; [assumption |]). exact (Hb H4).
Defined.

(** ** Merging in either direction *)

(** X11. Whether two packets can be merged does not depend on which of
    the two absorbs the other; a packet that holds [MAX_COUNT] units
    absorbs no packet that holds a unit, and two packets of at most
    32767 units each are always merged. *)
Theorem TryMerge_either_way (p q : CargoPacket.t) :
  CargoPacket.well_typed p -> CargoPacket.well_typed q ->
  fst (fst (CargoPacket.TryMerge p q)) = fst (fst (CargoPacket.TryMerge q p)) /\
  (CargoPacket.count p = CargoPacket.MAX_COUNT -> 1 <= CargoPacket.count q ->
     CargoPacket.TryMerge p q = (false, p, Some q) /\
     CargoPacket.TryMerge q p = (false, q, Some p)) /\
  (CargoPacket.count p <= 32767 -> CargoPacket.count q <= 32767 ->
     fst (fst (CargoPacket.TryMerge p q)) = true).
Proof.
  intros [Hp _] [Hq _].
  unfold CargoPacket.TryMerge.
  rewrite (int_add_uint16 _ _ Hp Hq), (int_add_uint16 _ _ Hq Hp).
  rewrite (Z.add_comm (CargoPacket.count q) (CargoPacket.count p)).
  unfold CargoPacket.MAX_COUNT, MInt.UINT16_MAX.
  destruct (Z.gtb_spec (CargoPacket.count p + CargoPacket.count q) 65535) as [Hgt | Hle].
  - split; [reflexivity |]. split.
    + intros _ _. split; reflexivity.
    + intros H1 H2. lia.
  - split; [reflexivity |]. split.
    + intros H1 H2. lia.
    + intros _ _. reflexivity.
Qed.

Lemma TryMerge_either_way_witness :
  CargoPacket.well_typed packet_50 /\ CargoPacket.well_typed packet_30 /\
  fst (fst (CargoPacket.TryMerge packet_50 packet_30))
    = fst (fst (CargoPacket.TryMerge packet_30 packet_50)).
Proof.
  assert (H50 : CargoPacket.well_typed packet_50)
    by (apply packet_well_typed; lia).
  assert (H30 : CargoPacket.well_typed packet_30)
    by (apply packet_well_typed; lia).
  split; [exact H50 |]. split; [exact H30 |].
  exact (proj1 (TryMerge_either_way packet_50 packet_30 H50 H30)).
Defined.

(** ** The average time in transit *)

Lemma packets_days_between (lo hi : Z) (l : CargoPacketList) :
  Forall (fun cp => 0 <= CargoPacket.count cp /\
                    lo <= CargoPacket.days_in_transit cp <= hi) l ->
  lo * packets_count l <= packets_days l <= hi * packets_count l /\
  0 <= packets_count l.
Proof.
  induction 1 as [| cp rest [Hc Hd] _ IH]; simpl; [lia |].
  destruct IH as [IH1 IH2]. split; [nia | lia].
Qed.

(** X12. For a vehicle list whose two caches are exact (the count is
    the sum of the counts of its packets, [cargo_days_in_transit] the
    sum of their counts times their days), [DaysInTransit] lies between
    any two bounds between which the days of all its packets lie: it is
    an average, and at most 255 as the days of a packet are. *)
Theorem DaysInTransit_is_an_average (l : VehicleCargoList.t) (lo hi : Z) :
  VehicleCargoList.count l = packets_count (VehicleCargoList.packets l) ->
  VehicleCargoList.cargo_days_in_transit l = packets_days (VehicleCargoList.packets l) ->
  Forall (fun cp => 0 <= CargoPacket.count cp /\
                    lo <= CargoPacket.days_in_transit cp <= hi)
         (VehicleCargoList.packets l) ->
  VehicleCargoList.count l <> 0 ->
  exists days,
    VehicleCargoList.DaysInTransit l = Some days /\ lo <= days <= hi.
Proof.
  intros Hcount Hdays Hall Hne.
  destruct (packets_days_between lo hi _ Hall) as [[Hlo Hhi] Hpos].
  unfold VehicleCargoList.DaysInTransit.
  rewrite CargoList_DaysInTransit_eq.
  unfold VehicleCargoList.count, VehicleCargoList.cargo_days_in_transit in *.
  destruct (Z.eqb_spec (CargoList.count (VehicleCargoList.parent l)) 0) as [E | _];
    [contradiction |].
  eexists. split; [reflexivity |].
  rewrite Hdays, Hcount. rewrite Hcount in Hne.
  unfold VehicleCargoList.packets in *.
  split.
  - apply Z.div_le_lower_bound; lia.
  - apply Z.div_le_upper_bound; lia.
Qed.

Lemma DaysInTransit_is_an_average_witness :
  VehicleCargoList.count vehicle_80 = packets_count (VehicleCargoList.packets vehicle_80) /\
  VehicleCargoList.cargo_days_in_transit vehicle_80
    = packets_days (VehicleCargoList.packets vehicle_80) /\
  exists days, VehicleCargoList.DaysInTransit vehicle_80 = Some days /\ 3 <= days <= 3.
Proof.
  assert (Hc : VehicleCargoList.count vehicle_80
               = packets_count (VehicleCargoList.packets vehicle_80)) by reflexivity.
  assert (Hd : VehicleCargoList.cargo_days_in_transit vehicle_80
               = packets_days (VehicleCargoList.packets vehicle_80)) by reflexivity.
  split; [exact Hc |]. split; [exact Hd |].
  apply (DaysInTransit_is_an_average vehicle_80 3 3 Hc Hd).
  - repeat constructor; simpl; lia.
  - discriminate.
Defined.

(** ** Stacks of stations *)

Lemma HasCargoFor_loop_app (a b : StationIDStack) (m : StationCargoPacketMap) :
  StationCargoList.HasCargoFor_loop (a ++ b) m
    = StationCargoList.HasCargoFor_loop a m || StationCargoList.HasCargoFor_loop b m.
Proof.
  induction a as [| id rest IH]; simpl; [reflexivity |].
  destruct (MultiMap.contains id m); [reflexivity | exact IH].
Qed.

Lemma HasCargoFor_loop_same_members (a b : StationIDStack) (m : StationCargoPacketMap) :
  (forall id, In id a <-> In id b) ->
  StationCargoList.HasCargoFor_loop a m = StationCargoList.HasCargoFor_loop b m.
Proof.
  intros Hab.
  destruct (StationCargoList.HasCargoFor_loop a m) eqn:Ea;
    destruct (StationCargoList.HasCargoFor_loop b m) eqn:Eb; try reflexivity.
  - apply HasCargoFor_loop_true in Ea. destruct Ea as [id [Hin Hc]].
    assert (Hb : StationCargoList.HasCargoFor_loop b m = true).
    { apply HasCargoFor_loop_true. exists id. split; [apply Hab; exact Hin | exact Hc]. }
    rewrite Eb in Hb. discriminate Hb.
  - apply HasCargoFor_loop_true in Eb. destruct Eb as [id [Hin Hc]].
    assert (Ha : StationCargoList.HasCargoFor_loop a m = true).
    { apply HasCargoFor_loop_true. exists id. split; [apply Hab; exact Hin | exact Hc]. }
    rewrite Ea in Ha. discriminate Ha.
Qed.

(** X13. [HasCargoFor] of two stacks put one after the other is the
    disjunction of [HasCargoFor] of each; the answer depends only on
    which stations are in the stack, not on their order or repetition;
    for the empty stack it tells whether there is cargo for
    [INVALID_STATION], and when there is, the answer is [true] for every
    stack. *)
Theorem HasCargoFor_stacks (INVALID_STATION : StationID) (l : StationCargoList.t)
    (a b : StationIDStack) :
  StationCargoList.HasCargoFor INVALID_STATION l (a ++ b)
    = StationCargoList.HasCargoFor INVALID_STATION l a
      || StationCargoList.HasCargoFor INVALID_STATION l b /\
  ((forall id, In id a <-> In id b) ->
     StationCargoList.HasCargoFor INVALID_STATION l a
       = StationCargoList.HasCargoFor INVALID_STATION l b) /\
  StationCargoList.HasCargoFor INVALID_STATION l []
    = MultiMap.contains INVALID_STATION (StationCargoList.packets l) /\
  (MultiMap.contains INVALID_STATION (StationCargoList.packets l) = true ->
     StationCargoList.HasCargoFor INVALID_STATION l a = true).
Proof.
  unfold StationCargoList.HasCargoFor.
  split; [| split; [| split]].
  - rewrite HasCargoFor_loop_app.
    destruct (StationCargoList.HasCargoFor_loop a (StationCargoList.packets l));
      destruct (StationCargoList.HasCargoFor_loop b (StationCargoList.packets l));
      destruct (MultiMap.contains INVALID_STATION (StationCargoList.packets l));
      reflexivity.
  - intros Hab. rewrite (HasCargoFor_loop_same_members a b _ Hab). reflexivity.
  - reflexivity.
  - intros H. rewrite H.
    destruct (StationCargoList.HasCargoFor_loop a (StationCargoList.packets l));
      reflexivity.
Qed.

Lemma HasCargoFor_stacks_witness :
  (forall id, In id [9; 7] <-> In id [7; 9; 7]) /\
  StationCargoList.HasCargoFor 65535 station_80 [9; 7]
    = StationCargoList.HasCargoFor 65535 station_80 [7; 9; 7].
Proof.
  assert (H : forall id, In id [9; 7] <-> In id [7; 9; 7]).
  { intros id. simpl. tauto. }
  split; [exact H |].
  exact (proj1 (proj2 (HasCargoFor_stacks 65535 station_80 [9; 7] [7; 9; 7])) H).
Defined.

(** * Properties of tile_map.h *)

(** ** Bit fields of a byte *)

Lemma all_below_true (n : nat) (P : Z -> bool) :
  TileMap.all_below n P = true ->
  forall x, 0 <= x < Z.of_nat n -> P x = true.
Proof.
  induction n as [| k IH]; simpl; intros H x Hx; [lia |].
  apply andb_prop in H. destruct H as [Hk Hrest].
  destruct (Z.eq_dec x (Z.of_nat k)) as [E | NE].
  - subst x. exact Hk.
  - apply IH; [exact Hrest | lia].
Qed.

Lemma all_below_pairs (n m : nat) (P : Z -> Z -> bool) :
  TileMap.all_below n (fun x => TileMap.all_below m (P x)) = true ->
  forall x d, 0 <= x < Z.of_nat n -> 0 <= d < Z.of_nat m -> P x d = true.
Proof.
  intros H x d Hx Hd.
  apply (all_below_true m (P x)); [| exact Hd].
  apply (all_below_true n (fun x => TileMap.all_below m (P x)) H x Hx).
Qed.

(** The field of 4 bits at bit 0 (the height). *)
Lemma SB_0_4 (x d : Z) :
  MInt.is_byte x -> 0 <= d <= 15 ->
  TileMap.GB (TileMap.SB x 0 4 d) 0 4 = d /\
  TileMap.GB (TileMap.SB x 0 4 d) 6 2 = TileMap.GB x 6 2 /\
  MInt.is_byte (TileMap.SB x 0 4 d).
Proof.
  intros Hx Hd.
  assert (H : ((TileMap.GB (TileMap.SB x 0 4 d) 0 4 =? d)
               && (TileMap.GB (TileMap.SB x 0 4 d) 6 2 =? TileMap.GB x 6 2)
               && (0 <=? TileMap.SB x 0 4 d) && (TileMap.SB x 0 4 d <=? 255)) = true).
  { apply (all_below_pairs 256 16
             (fun x d => (TileMap.GB (TileMap.SB x 0 4 d) 0 4 =? d)
                         && (TileMap.GB (TileMap.SB x 0 4 d) 6 2 =? TileMap.GB x 6 2)
                         && (0 <=? TileMap.SB x 0 4 d) && (TileMap.SB x 0 4 d <=? 255)));
      [vm_compute; reflexivity | unfold MInt.is_byte in Hx; lia | lia]. }
  unfold MInt.is_byte. lia.
Qed.

(** The field of 2 bits at bit 6 (the tropic zone, the subtype). *)
Lemma SB_6_2 (x d : Z) :
  MInt.is_byte x -> 0 <= d <= 3 ->
  TileMap.GB (TileMap.SB x 6 2 d) 6 2 = d /\
  TileMap.GB (TileMap.SB x 6 2 d) 0 4 = TileMap.GB x 0 4 /\
  TileMap.GB (TileMap.SB x 6 2 d) 0 5 = TileMap.GB x 0 5 /\
  MInt.is_byte (TileMap.SB x 6 2 d).
Proof.
  intros Hx Hd.
  assert (H : ((TileMap.GB (TileMap.SB x 6 2 d) 6 2 =? d)
               && (TileMap.GB (TileMap.SB x 6 2 d) 0 4 =? TileMap.GB x 0 4)
               && (TileMap.GB (TileMap.SB x 6 2 d) 0 5 =? TileMap.GB x 0 5)
               && (0 <=? TileMap.SB x 6 2 d) && (TileMap.SB x 6 2 d <=? 255)) = true).
  { apply (all_below_pairs 256 4
             (fun x d => (TileMap.GB (TileMap.SB x 6 2 d) 6 2 =? d)
                         && (TileMap.GB (TileMap.SB x 6 2 d) 0 4 =? TileMap.GB x 0 4)
                         && (TileMap.GB (TileMap.SB x 6 2 d) 0 5 =? TileMap.GB x 0 5)
                         && (0 <=? TileMap.SB x 6 2 d) && (TileMap.SB x 6 2 d <=? 255)));
      [vm_compute; reflexivity | unfold MInt.is_byte in Hx; lia | lia]. }
  unfold MInt.is_byte. lia.
Qed.

(** The field of 4 bits at bit 4 (the type): its two upper bits are the
    type divided by 4. *)
Lemma SB_4_4 (x d : Z) :
  MInt.is_byte x -> 0 <= d <= 15 ->
  TileMap.GB (TileMap.SB x 4 4 d) 4 4 = d /\
  (TileMap.GB (TileMap.SB x 4 4 d) 6 2 =? 3) = (12 <=? d) /\
  MInt.is_byte (TileMap.SB x 4 4 d).
Proof.
  intros Hx Hd.
  assert (H : ((TileMap.GB (TileMap.SB x 4 4 d) 4 4 =? d)
               && Bool.eqb (TileMap.GB (TileMap.SB x 4 4 d) 6 2 =? 3) (12 <=? d)
               && (0 <=? TileMap.SB x 4 4 d) && (TileMap.SB x 4 4 d <=? 255)) = true).
  { apply (all_below_pairs 256 16
             (fun x d => (TileMap.GB (TileMap.SB x 4 4 d) 4 4 =? d)
                         && Bool.eqb (TileMap.GB (TileMap.SB x 4 4 d) 6 2 =? 3) (12 <=? d)
                         && (0 <=? TileMap.SB x 4 4 d) && (TileMap.SB x 4 4 d <=? 255)));
      [vm_compute; reflexivity | unfold MInt.is_byte in Hx; lia | lia]. }
  apply andb_prop in H. destruct H as [H H4].
  apply andb_prop in H. destruct H as [H H3].
  apply andb_prop in H. destruct H as [H1 H2].
  apply Bool.eqb_prop in H2.
  unfold MInt.is_byte. repeat split; [lia | exact H2 | lia | lia].
Qed.

(** The field of 5 bits at bit 0 (the owner). *)
Lemma SB_0_5 (x d : Z) :
  MInt.is_byte x -> 0 <= d <= 31 ->
  TileMap.GB (TileMap.SB x 0 5 d) 0 5 = d /\
  TileMap.GB (TileMap.SB x 0 5 d) 6 2 = TileMap.GB x 6 2 /\
  MInt.is_byte (TileMap.SB x 0 5 d).
Proof.
  intros Hx Hd.
  assert (H : ((TileMap.GB (TileMap.SB x 0 5 d) 0 5 =? d)
               && (TileMap.GB (TileMap.SB x 0 5 d) 6 2 =? TileMap.GB x 6 2)
               && (0 <=? TileMap.SB x 0 5 d) && (TileMap.SB x 0 5 d <=? 255)) = true).
  { apply (all_below_pairs 256 32
             (fun x d => (TileMap.GB (TileMap.SB x 0 5 d) 0 5 =? d)
                         && (TileMap.GB (TileMap.SB x 0 5 d) 6 2 =? TileMap.GB x 6 2)
                         && (0 <=? TileMap.SB x 0 5 d) && (TileMap.SB x 0 5 d <=? 255)));
      [vm_compute; reflexivity | unfold MInt.is_byte in Hx; lia | lia]. }
  unfold MInt.is_byte. lia.
Qed.

(** The fields as they are read from any byte. *)
Lemma GB_of_byte (x : Z) :
  MInt.is_byte x ->
  0 <= TileMap.GB x 0 4 <= 15 /\
  0 <= TileMap.GB x 4 4 <= 15 /\
  (TileMap.GB x 6 2 =? 3) = (12 <=? TileMap.GB x 4 4) /\
  0 <= TileMap.GB x 6 2 <= 3 /\
  0 <= TileMap.GB x 0 5 <= 31.
Proof.
  intros Hx.
  assert (H : ((0 <=? TileMap.GB x 0 4) && (TileMap.GB x 0 4 <=? 15)
               && (0 <=? TileMap.GB x 4 4) && (TileMap.GB x 4 4 <=? 15)
               && Bool.eqb (TileMap.GB x 6 2 =? 3) (12 <=? TileMap.GB x 4 4)
               && (0 <=? TileMap.GB x 6 2) && (TileMap.GB x 6 2 <=? 3)
               && (0 <=? TileMap.GB x 0 5) && (TileMap.GB x 0 5 <=? 31)) = true).
  { apply (all_below_true 256
             (fun x => (0 <=? TileMap.GB x 0 4) && (TileMap.GB x 0 4 <=? 15)
                       && (0 <=? TileMap.GB x 4 4) && (TileMap.GB x 4 4 <=? 15)
                       && Bool.eqb (TileMap.GB x 6 2 =? 3) (12 <=? TileMap.GB x 4 4)
                       && (0 <=? TileMap.GB x 6 2) && (TileMap.GB x 6 2 <=? 3)
                       && (0 <=? TileMap.GB x 0 5) && (TileMap.GB x 0 5 <=? 31)));
      [vm_compute; reflexivity | unfold MInt.is_byte in Hx; lia]. }
  repeat (apply andb_prop in H; let H' := fresh "H" in destruct H as [H H']).
  match goal with E : Bool.eqb _ _ = true |- _ => apply Bool.eqb_prop in E end.
  repeat split; try lia; assumption.
Qed.

(** ** The functions on a tile of the map *)

Lemma in_map_true (env : TileMap.Env) (tile : TileIndex) :
  0 <= tile < TileMap.MapSize env ->
  TileMap.in_map env tile = true /\ (tile <? TileMap.MapSize env) = true.
Proof.
  intros H. unfold TileMap.in_map.
  destruct (Z.leb_spec 0 tile); destruct (Z.ltb_spec tile (TileMap.MapSize env));
    try lia; split; reflexivity.
Qed.

Lemma store_same (A : Type) (array : TileIndex -> A) (tile : TileIndex) (v : A) :
  TileMap.store array tile v tile = v.
Proof. unfold TileMap.store. rewrite Z.eqb_refl. reflexivity. Qed.

Lemma store_other (A : Type) (array : TileIndex -> A) (tile other : TileIndex) (v : A) :
  other <> tile -> TileMap.store array tile v other = array other.
Proof.
  intros H. unfold TileMap.store.
  destruct (Z.eqb_spec other tile) as [E | _]; [contradiction | reflexivity].
Qed.

Lemma TileHeight_in_map (env : TileMap.Env) (map : TileMap.Map) (tile : TileIndex) :
  0 <= tile < TileMap.MapSize env ->
  TileMap.TileHeight env map tile = Some (TileMap.GB (TileMap.type_height map tile) 0 4).
Proof.
  intros H. destruct (in_map_true env tile H) as [H1 H2].
  unfold TileMap.TileHeight, TileMap.read_mth. rewrite H1, H2. reflexivity.
Qed.

Lemma TileHeight_outside (env : TileMap.Env) (map : TileMap.Map) (tile : TileIndex) :
  TileMap.MapSize env <= tile -> TileMap.TileHeight env map tile = None.
Proof.
  intros H. unfold TileMap.TileHeight.
  destruct (Z.ltb_spec tile (TileMap.MapSize env)); [lia | reflexivity].
Qed.

Lemma GetTropicZone_in_map (env : TileMap.Env) (map : TileMap.Map) (tile : TileIndex) :
  0 <= tile < TileMap.MapSize env ->
  TileMap.GetTropicZone env map tile = Some (TileMap.GB (TileMap.type_height map tile) 6 2).
Proof.
  intros H. destruct (in_map_true env tile H) as [H1 H2].
  unfold TileMap.GetTropicZone, TileMap.read_mth. rewrite H1, H2. reflexivity.
Qed.

Lemma GetTropicZone_outside (env : TileMap.Env) (map : TileMap.Map) (tile : TileIndex) :
  TileMap.MapSize env <= tile -> TileMap.GetTropicZone env map tile = None.
Proof.
  intros H. unfold TileMap.GetTropicZone.
  destruct (Z.ltb_spec tile (TileMap.MapSize env)); [lia | reflexivity].
Qed.

Lemma GetTileType_in_map (env : TileMap.Env) (map : TileMap.Map) (tile : TileIndex) :
  0 <= tile < TileMap.MapSize env ->
  TileMap.GetTileType env map tile
    = Some (TileMap.GB (TileMap.m0 (TileMap.mc map tile)) 4 4).
Proof.
  intros H. destruct (in_map_true env tile H) as [H1 H2].
  unfold TileMap.GetTileType, TileMap.read_mc. rewrite H1, H2. reflexivity.
Qed.

Lemma GetTileType_outside (env : TileMap.Env) (map : TileMap.Map) (tile : TileIndex) :
  TileMap.MapSize env <= tile -> TileMap.GetTileType env map tile = None.
Proof.
  intros H. unfold TileMap.GetTileType.
  destruct (Z.ltb_spec tile (TileMap.MapSize env)); [lia | reflexivity].
Qed.

Lemma IsTileType_in_map (env : TileMap.Env) (map : TileMap.Map) (tile : TileIndex)
    (type : Z) :
  0 <= tile < TileMap.MapSize env ->
  TileMap.IsTileType env map tile type
    = Some (TileMap.GB (TileMap.m0 (TileMap.mc map tile)) 4 4 =? type).
Proof.
  intros H. unfold TileMap.IsTileType. rewrite (GetTileType_in_map env map tile H).
  reflexivity.
Qed.

Lemma IsHouseTile_in_map (env : TileMap.Env) (map : TileMap.Map) (tile : TileIndex) :
  0 <= tile < TileMap.MapSize env ->
  TileMap.IsHouseTile env map tile
    = Some (TileMap.GB (TileMap.m0 (TileMap.mc map tile)) 6 2 =? 3).
Proof.
  intros H. destruct (in_map_true env tile H) as [H1 _].
  unfold TileMap.IsHouseTile, TileMap.read_mc. rewrite H1. reflexivity.
Qed.

(** X14. [TileHeight] fails exactly for the tiles outside the map, and
    for a tile of the map it returns a height of at most 15, whatever
    the byte of the tile holds; [TilePixelHeight] is that height times
    [TILE_HEIGHT]. *)
Theorem TileHeight_at_most_15 (env : TileMap.Env) (map : TileMap.Map) (tile : TileIndex) :
  TileMap.bytes map -> 0 <= tile ->
  (TileMap.TileHeight env map tile = None <-> TileMap.MapSize env <= tile) /\
  (forall height, TileMap.TileHeight env map tile = Some height ->
     0 <= height <= 15 /\
     TileMap.TilePixelHeight env map tile
       = Some (MInt.to_uint (height * TileMap.TILE_HEIGHT env))).
Proof.
  intros Hb Ht.
  destruct (Z_lt_le_dec tile (TileMap.MapSize env)) as [Hin | Hout].
  - rewrite (TileHeight_in_map env map tile) by lia. split.
    + split; [discriminate | lia].
    + intros height E. injection E as E. subst height.
      destruct (Hb tile) as [Hth _].
      split; [exact (proj1 (GB_of_byte _ Hth)) |].
      unfold TileMap.TilePixelHeight.
      rewrite (TileHeight_in_map env map tile) by lia. reflexivity.
  - rewrite (TileHeight_outside env map tile Hout). split.
    + split; [intros _; exact Hout | reflexivity].
    + intros height E. discriminate E.
Qed.

Lemma map_16_bytes : TileMap.bytes map_16.
Proof.
  intros tile. unfold map_16, MInt.is_byte. simpl.
  destruct (tile =? 17); simpl; lia.
Defined.

Lemma TileHeight_at_most_15_witness :
  TileMap.bytes map_16 /\ 0 <= 17 /\
  TileMap.TileHeight env_16 map_16 17 = Some 5 /\ 0 <= 5 <= 15.
Proof.
  assert (H0 : 0 <= 17) by lia.
  assert (H5 : TileMap.TileHeight env_16 map_16 17 = Some 5) by reflexivity.
  split; [exact map_16_bytes |]. split; [exact H0 |]. split; [exact H5 |].
  exact (proj1 (proj2 (TileHeight_at_most_15 env_16 map_16 17 map_16_bytes H0) 5 H5)).
Defined.

(** X15. [SetTileHeight] fails exactly when the tile is outside the map
    or the height is above [MAX_TILE_HEIGHT].  When [MAX_TILE_HEIGHT]
    is at most 15 and it succeeds, [TileHeight] of the tile returns the
    height that was set, the tropic zone of the tile is as before, the
    height and tropic zone of every other tile are as before, and the
    array [_mc] is untouched. *)
Theorem SetTileHeight_then_TileHeight (env : TileMap.Env) (map : TileMap.Map)
    (tile : TileIndex) (height : Z) :
  TileMap.bytes map -> TileMap.MAX_TILE_HEIGHT env <= 15 ->
  0 <= tile -> 0 <= height ->
  (TileMap.SetTileHeight env map tile height = None
     <-> TileMap.MapSize env <= tile \/ TileMap.MAX_TILE_HEIGHT env < height) /\
  (forall map', TileMap.SetTileHeight env map tile height = Some map' ->
     TileMap.TileHeight env map' tile = Some height /\
     TileMap.GetTropicZone env map' tile = TileMap.GetTropicZone env map tile /\
     (forall other, other <> tile ->
        TileMap.TileHeight env map' other = TileMap.TileHeight env map other /\
        TileMap.GetTropicZone env map' other = TileMap.GetTropicZone env map other) /\
     TileMap.mc map' = TileMap.mc map /\
     TileMap.bytes map').
Proof.
  intros Hb Hmax Ht Hh.
  unfold TileMap.SetTileHeight, TileMap.read_mth, TileMap.in_map.
  destruct (Z.ltb_spec tile (TileMap.MapSize env)) as [Hin | Hout]; simpl.
  2: { split; [split; [intros _; left; exact Hout | reflexivity] |].
       intros map' E. discriminate E. }
  destruct (Z.leb_spec height (TileMap.MAX_TILE_HEIGHT env)) as [Hle | Hgt]; simpl.
  2: { split; [split; [intros _; right; exact Hgt | reflexivity] |].
       intros map' E. discriminate E. }
  destruct (Z.leb_spec 0 tile) as [_ | Hneg]; [simpl | lia].
  split; [split; [discriminate | lia] |].
  intros map' E. injection E as E. subst map'.
  destruct (Hb tile) as [Hth _].
  destruct (SB_0_4 (TileMap.type_height map tile) height Hth ltac:(lia))
    as [Hget [Hzone Hbyte]].
  split.
  { rewrite TileHeight_in_map by lia. simpl. rewrite store_same. f_equal. exact Hget. }
  split.
  { rewrite !GetTropicZone_in_map by lia. simpl. rewrite store_same.
    f_equal. exact Hzone. }
  split.
  { intros other Hother.
    destruct (Z_lt_le_dec other (TileMap.MapSize env)) as [Oin | Oout].
    - destruct (Z_lt_le_dec other 0) as [Oneg | Opos].
      + unfold TileMap.TileHeight, TileMap.GetTropicZone, TileMap.read_mth, TileMap.in_map.
        destruct (Z.leb_spec 0 other); [lia |].
        destruct (other <? TileMap.MapSize env); split; reflexivity.
      + rewrite !TileHeight_in_map, !GetTropicZone_in_map by lia. simpl.
        rewrite store_other by exact Hother. split; reflexivity.
    - rewrite !TileHeight_outside, !GetTropicZone_outside by exact Oout.
      split; reflexivity. }
  split; [reflexivity |].
  intros i. simpl. destruct (Hb i) as [Hi Hrest].
  split; [| exact Hrest].
  unfold TileMap.store. destruct (i =? tile); [exact Hbyte | exact Hi].
Qed.

Lemma SetTileHeight_then_TileHeight_witness :
  TileMap.bytes map_16 /\ TileMap.MAX_TILE_HEIGHT env_16 <= 15 /\
  exists map',
    TileMap.SetTileHeight env_16 map_16 17 9 = Some map' /\
    TileMap.TileHeight env_16 map' 17 = Some 9.
Proof.
  assert (Hm : TileMap.MAX_TILE_HEIGHT env_16 <= 15) by (simpl; lia).
  split; [exact map_16_bytes |]. split; [exact Hm |].
  eexists. split; [reflexivity |].
  apply (proj2 (SetTileHeight_then_TileHeight env_16 map_16 17 9 map_16_bytes Hm
                  ltac:(lia) ltac:(lia))).
  reflexivity.
Defined.

Lemma IsVoidTile_in_map (env : TileMap.Env) (map : TileMap.Map) (tile : TileIndex) :
  0 <= tile < TileMap.MapSize env ->
  TileMap.IsVoidTile env map tile
    = Some (TileMap.GB (TileMap.m0 (TileMap.mc map tile)) 4 4 =? TileMap.TT_VOID_TEMP env).
Proof.
  intros H. unfold TileMap.IsVoidTile. apply IsTileType_in_map. exact H.
Qed.

Lemma tropic_zone_stored (env : TileMap.Env) (map : TileMap.Map)
    (tile : TileIndex) (zone : Z) :
  TileMap.bytes map -> 0 <= tile < TileMap.MapSize env -> 0 <= zone <= 3 ->
  forall map',
    map' = TileMap.mkMap
             (TileMap.store (TileMap.type_height map) tile
                            (TileMap.SB (TileMap.type_height map tile) 6 2 zone))
             (TileMap.mc map) ->
    TileMap.GetTropicZone env map' tile = Some zone /\
    TileMap.TileHeight env map' tile = TileMap.TileHeight env map tile /\
    (forall other, other <> tile ->
       TileMap.type_height map' other = TileMap.type_height map other) /\
    TileMap.mc map' = TileMap.mc map /\
    TileMap.bytes map'.
Proof.
  intros Hb Ht Hz map' E. subst map'.
  destruct (Hb tile) as [Hth _].
  destruct (SB_6_2 (TileMap.type_height map tile) zone Hth Hz)
    as [Hget [Hheight [_ Hbyte]]].
  split.
  { rewrite GetTropicZone_in_map by exact Ht. simpl. rewrite store_same.
    f_equal. exact Hget. }
  split.
  { rewrite !TileHeight_in_map by exact Ht. simpl. rewrite store_same.
    f_equal. exact Hheight. }
  split; [intros other Ho; simpl; apply store_other; exact Ho |].
  split; [reflexivity |].
  intros i. simpl. destruct (Hb i) as [Hi Hrest]. split; [| exact Hrest].
  unfold TileMap.store. destruct (i =? tile); [exact Hbyte | exact Hi].
Qed.

(** X16. [SetTropicZone] fails exactly when the tile is outside the map
    or the tile is void and the zone is not [TROPICZONE_NORMAL].  When
    it succeeds with a zone of two bits, [GetTropicZone] of the tile
    returns the zone that was set, the height of the tile is as before,
    every other tile is as before, and the array [_mc] is untouched. *)
Theorem SetTropicZone_then_GetTropicZone (env : TileMap.Env) (map : TileMap.Map)
    (tile : TileIndex) (zone : Z) :
  TileMap.bytes map -> 0 <= tile -> 0 <= zone <= 3 ->
  (TileMap.SetTropicZone env map tile zone = None
     <-> TileMap.MapSize env <= tile \/
         (TileMap.IsVoidTile env map tile = Some true /\
          zone <> TileMap.TROPICZONE_NORMAL env)) /\
  (forall map', TileMap.SetTropicZone env map tile zone = Some map' ->
     TileMap.GetTropicZone env map' tile = Some zone /\
     TileMap.TileHeight env map' tile = TileMap.TileHeight env map tile /\
     (forall other, other <> tile ->
        TileMap.type_height map' other = TileMap.type_height map other) /\
     TileMap.mc map' = TileMap.mc map /\
     TileMap.bytes map').
Proof.
  intros Hb Ht Hz.
  destruct (Z_lt_le_dec tile (TileMap.MapSize env)) as [Hin | Hout].
  2: { unfold TileMap.SetTropicZone.
       destruct (Z.ltb_spec tile (TileMap.MapSize env)); [lia | simpl].
       split; [split; [intros _; left; exact Hout | reflexivity] |].
       intros map' E. discriminate E. }
  assert (Htile : 0 <= tile < TileMap.MapSize env) by lia.
  destruct (in_map_true env tile Htile) as [H1 H2].
  unfold TileMap.SetTropicZone, TileMap.read_mth.
  rewrite H1, H2, (IsVoidTile_in_map env map tile Htile). simpl.
  destruct (TileMap.GB (TileMap.m0 (TileMap.mc map tile)) 4 4
            =? TileMap.TT_VOID_TEMP env);
    destruct (Z.eqb_spec zone (TileMap.TROPICZONE_NORMAL env)) as [En | Nn]; simpl.
  - split; [split; [discriminate | intros [Ho | [_ Hn]]; [lia | contradiction]] |].
    intros map' E. injection E as E.
    apply (tropic_zone_stored env map tile zone Hb Htile Hz). symmetry. exact E.
  - split; [split; [intros _; right; split; [reflexivity | exact Nn] | reflexivity] |].
    intros map' E. discriminate E.
  - split; [split; [discriminate | intros [Ho | [_ Hn]]; [lia | contradiction]] |].
    intros map' E. injection E as E.
    apply (tropic_zone_stored env map tile zone Hb Htile Hz). symmetry. exact E.
  - split; [split; [discriminate | intros [Ho | [Hv _]]; [lia | discriminate Hv]] |].
    intros map' E. injection E as E.
    apply (tropic_zone_stored env map tile zone Hb Htile Hz). symmetry. exact E.
Qed.

Lemma SetTropicZone_then_GetTropicZone_witness :
  TileMap.bytes map_16 /\ 0 <= 2 <= 3 /\
  exists map',
    TileMap.SetTropicZone env_16 map_16 17 2 = Some map' /\
    TileMap.GetTropicZone env_16 map' 17 = Some 2.
Proof.
  split; [exact map_16_bytes |]. split; [lia |].
  eexists. split; [reflexivity |].
  apply (proj2 (SetTropicZone_then_GetTropicZone env_16 map_16 17 2 map_16_bytes
                  ltac:(lia) ltac:(lia))).
  reflexivity.
Defined.

Lemma IsInnerTile_in_map (env : TileMap.Env) (tile : TileIndex) :
  tile < TileMap.MapSize env ->
  TileMap.IsInnerTile env tile
    = Some ((TileMap.TileX env tile <? TileMap.MapMaxX env)
            && (TileMap.TileY env tile <? TileMap.MapMaxY env)
            && (((TileMap.TileX env tile >? 0) && (TileMap.TileY env tile >? 0))
                || negb (TileMap.freeform_edges env))).
Proof.
  intros H. unfold TileMap.IsInnerTile.
  destruct (Z.ltb_spec tile (TileMap.MapSize env)); [reflexivity | lia].
Qed.

Lemma tile_type_stored (env : TileMap.Env) (map : TileMap.Map)
    (tile : TileIndex) (type : Z) :
  TileMap.bytes map -> 0 <= tile < TileMap.MapSize env -> 0 <= type < 12 ->
  forall map',
    map' = TileMap.mkMap (TileMap.type_height map)
             (TileMap.store (TileMap.mc map) tile
                (TileMap.mkTile (TileMap.SB (TileMap.m0 (TileMap.mc map tile)) 4 4 type)
                                (TileMap.m1 (TileMap.mc map tile))
                                (TileMap.m7 (TileMap.mc map tile)))) ->
    TileMap.GetTileType env map' tile = Some type /\
    TileMap.IsHouseTile env map' tile = Some false /\
    TileMap.type_height map' = TileMap.type_height map /\
    TileMap.m1 (TileMap.mc map' tile) = TileMap.m1 (TileMap.mc map tile) /\
    TileMap.m7 (TileMap.mc map' tile) = TileMap.m7 (TileMap.mc map tile) /\
    (forall other, other <> tile -> TileMap.mc map' other = TileMap.mc map other) /\
    TileMap.bytes map'.
Proof.
  intros Hb Ht Hty map' E. subst map'.
  destruct (Hb tile) as [_ [Hm0 [Hm1 Hm7]]].
  destruct (SB_4_4 (TileMap.m0 (TileMap.mc map tile)) type Hm0 ltac:(lia))
    as [Hget [Hhouse Hbyte]].
  split.
  { rewrite GetTileType_in_map by exact Ht. simpl. rewrite store_same. simpl.
    f_equal. exact Hget. }
  split.
  { rewrite IsHouseTile_in_map by exact Ht. simpl. rewrite store_same. simpl.
    f_equal. rewrite Hhouse. apply Z.leb_gt. lia. }
  split; [reflexivity |].
  split; [simpl; rewrite store_same; reflexivity |].
  split; [simpl; rewrite store_same; reflexivity |].
  split; [intros other Ho; simpl; apply store_other; exact Ho |].
  intros i. simpl. destruct (Hb i) as [Hi Hrest]. split; [exact Hi |].
  unfold TileMap.store. destruct (i =? tile); [simpl | exact Hrest].
  split; [exact Hbyte | split; assumption].
Qed.

(** X17. [SetTileType] fails exactly when the tile is outside the map,
    the type is 12 or more, or the tile is not an inner tile and the
    type is not [TT_VOID_TEMP].  When it succeeds, [GetTileType] of the
    tile returns the type that was set and the tile is not a house tile;
    the other bytes of the tile, the other tiles and the heights are as
    before. *)
Theorem SetTileType_then_GetTileType (env : TileMap.Env) (map : TileMap.Map)
    (tile : TileIndex) (type : Z) :
  TileMap.bytes map -> 0 <= tile -> 0 <= type ->
  (TileMap.SetTileType env map tile type = None
     <-> TileMap.MapSize env <= tile \/ 12 <= type \/
         (TileMap.IsInnerTile env tile = Some false /\
          type <> TileMap.TT_VOID_TEMP env)) /\
  (forall map', TileMap.SetTileType env map tile type = Some map' ->
     TileMap.GetTileType env map' tile = Some type /\
     TileMap.IsHouseTile env map' tile = Some false /\
     TileMap.type_height map' = TileMap.type_height map /\
     TileMap.m1 (TileMap.mc map' tile) = TileMap.m1 (TileMap.mc map tile) /\
     TileMap.m7 (TileMap.mc map' tile) = TileMap.m7 (TileMap.mc map tile) /\
     (forall other, other <> tile -> TileMap.mc map' other = TileMap.mc map other) /\
     TileMap.bytes map').
Proof.
  intros Hb Ht Hty.
  destruct (Z_lt_le_dec tile (TileMap.MapSize env)) as [Hin | Hout].
  2: { unfold TileMap.SetTileType.
       destruct (Z.ltb_spec tile (TileMap.MapSize env)); [lia | simpl].
       split; [split; [intros _; left; exact Hout | reflexivity] |].
       intros map' E. discriminate E. }
  assert (Htile : 0 <= tile < TileMap.MapSize env) by lia.
  destruct (in_map_true env tile Htile) as [H1 H2].
  unfold TileMap.SetTileType, TileMap.read_mc.
  rewrite H1, H2, (IsInnerTile_in_map env tile Hin). simpl.
  destruct (Z.ltb_spec type 12) as [Hlt | Hge]; simpl.
  2: { split; [split; [intros _; right; left; exact Hge | reflexivity] |].
       intros map' E. discriminate E. }
  set (inner := (TileMap.TileX env tile <? TileMap.MapMaxX env)
                && (TileMap.TileY env tile <? TileMap.MapMaxY env)
                && (((TileMap.TileX env tile >? 0) && (TileMap.TileY env tile >? 0))
                    || negb (TileMap.freeform_edges env))).
  destruct inner;
    destruct (Z.eqb_spec type (TileMap.TT_VOID_TEMP env)) as [Ev | Nv]; simpl.
  - split; [split; [discriminate
                   | intros [Ho | [Hg | [Hi _]]]; [lia | lia | discriminate Hi]] |].
    intros map' E. injection E as E.
    apply (tile_type_stored env map tile type Hb Htile ltac:(lia)). symmetry. exact E.
  - split; [split; [discriminate
                   | intros [Ho | [Hg | [Hi _]]]; [lia | lia | discriminate Hi]] |].
    intros map' E. injection E as E.
    apply (tile_type_stored env map tile type Hb Htile ltac:(lia)). symmetry. exact E.
  - split; [split; [discriminate
                   | intros [Ho | [Hg | [_ Hn]]]; [lia | lia | contradiction]] |].
    intros map' E. injection E as E.
    apply (tile_type_stored env map tile type Hb Htile ltac:(lia)). symmetry. exact E.
  - split; [split; [intros _; right; right; split; [reflexivity | exact Nv]
                   | reflexivity] |].
    intros map' E. discriminate E.
Qed.

Lemma SetTileType_then_GetTileType_witness :
  TileMap.bytes map_16 /\
  exists map',
    TileMap.SetTileType env_16 map_16 17 7 = Some map' /\
    TileMap.GetTileType env_16 map' 17 = Some 7 /\
    TileMap.IsHouseTile env_16 map' 17 = Some false.
Proof.
  split; [exact map_16_bytes |].
  eexists. split; [reflexivity |].
  pose proof (proj2 (SetTileType_then_GetTileType env_16 map_16 17 7 map_16_bytes
                       ltac:(lia) ltac:(lia)) _ eq_refl) as H.
  split; [exact (proj1 H) | exact (proj1 (proj2 H))].
Defined.

(** X18. [IsValidTile] never fails, not even for a tile outside the
    map, where it is [false] without a look at the arrays.  It is
    [true] exactly for the tiles of the map whose type is not
    [TT_VOID_TEMP]; for a tile of the map the type is at most 15, and
    the tile is a house tile exactly when its type is 12 or more. *)
Theorem IsValidTile_guards_the_map (env : TileMap.Env) (map : TileMap.Map)
    (tile : TileIndex) :
  TileMap.bytes map -> 0 <= tile ->
  (TileMap.MapSize env <= tile ->
     TileMap.IsValidTile env map tile = Some false /\
     TileMap.GetTileType env map tile = None) /\
  (tile < TileMap.MapSize env ->
     exists type,
       TileMap.GetTileType env map tile = Some type /\ 0 <= type <= 15 /\
       TileMap.IsValidTile env map tile
         = Some (negb (type =? TileMap.TT_VOID_TEMP env)) /\
       TileMap.IsHouseTile env map tile = Some (12 <=? type)).
Proof.
  intros Hb Ht. split.
  - intros Hout. split; [| apply GetTileType_outside; exact Hout].
    unfold TileMap.IsValidTile.
    destruct (Z.ltb_spec tile (TileMap.MapSize env)); [lia | reflexivity].
  - intros Hin.
    assert (Htile : 0 <= tile < TileMap.MapSize env) by lia.
    destruct (Hb tile) as [_ [Hm0 _]].
    destruct (GB_of_byte _ Hm0) as [_ [Htype [Hhouse _]]].
    exists (TileMap.GB (TileMap.m0 (TileMap.mc map tile)) 4 4).
    split; [apply GetTileType_in_map; exact Htile |].
    split; [exact Htype |].
    split.
    + unfold TileMap.IsValidTile.
      destruct (Z.ltb_spec tile (TileMap.MapSize env)); [| lia].
      rewrite (IsVoidTile_in_map env map tile Htile). reflexivity.
    + rewrite (IsHouseTile_in_map env map tile Htile). f_equal. exact Hhouse.
Qed.

Lemma IsValidTile_guards_the_map_witness :
  TileMap.bytes map_16 /\ 17 < TileMap.MapSize env_16 /\
  exists type,
    TileMap.GetTileType env_16 map_16 17 = Some type /\
    TileMap.IsHouseTile env_16 map_16 17 = Some (12 <=? type).
Proof.
  assert (H : 17 < TileMap.MapSize env_16) by (simpl; lia).
  split; [exact map_16_bytes |]. split; [exact H |].
  destruct (proj2 (IsValidTile_guards_the_map env_16 map_16 17 map_16_bytes ltac:(lia)) H)
    as [type [Hty [_ [_ Hh]]]].
  exists type. split; [exact Hty | exact Hh].
Defined.

(** ** The owner and the subtype *)

Lemma owner_assertions_m0 (env : TileMap.Env) (map map' : TileMap.Map)
    (tile : TileIndex) :
  TileMap.m0 (TileMap.mc map' tile) = TileMap.m0 (TileMap.mc map tile) ->
  TileMap.owner_assertions env map' tile = TileMap.owner_assertions env map tile.
Proof.
  intros H.
  unfold TileMap.owner_assertions, TileMap.IsValidTile, TileMap.IsVoidTile,
    TileMap.IsHouseTile, TileMap.IsIndustryTile, TileMap.IsTileType,
    TileMap.GetTileType, TileMap.read_mc.
  destruct (tile <? TileMap.MapSize env); destruct (TileMap.in_map env tile);
    simpl; rewrite ?H; reflexivity.
Qed.

Lemma owner_assertions_in_map (env : TileMap.Env) (map : TileMap.Map)
    (tile : TileIndex) :
  0 <= tile ->
  TileMap.owner_assertions env map tile = Some tt ->
  0 <= tile < TileMap.MapSize env.
Proof.
  intros Ht H. split; [exact Ht |].
  unfold TileMap.owner_assertions, TileMap.IsValidTile in H.
  destruct (Z.ltb_spec tile (TileMap.MapSize env)) as [Hin | Hout]; [exact Hin |].
  simpl in H. discriminate H.
Qed.

(** X19. [SetTileOwner] succeeds exactly when [GetTileOwner] does.
    When it succeeds with an owner of five bits, [GetTileOwner] of the
    tile returns the owner that was set; the type of the tile and the
    two subtype bits of its byte [m1] are as before, and so are the
    other tiles and the heights. *)
Theorem SetTileOwner_then_GetTileOwner (env : TileMap.Env) (map : TileMap.Map)
    (tile : TileIndex) (owner : Z) :
  TileMap.bytes map -> 0 <= tile -> 0 <= owner <= 31 ->
  (TileMap.SetTileOwner env map tile owner = None
     <-> TileMap.GetTileOwner env map tile = None) /\
  (forall map', TileMap.SetTileOwner env map tile owner = Some map' ->
     TileMap.GetTileOwner env map' tile = Some owner /\
     TileMap.GetTileType env map' tile = TileMap.GetTileType env map tile /\
     TileMap.GB (TileMap.m1 (TileMap.mc map' tile)) 6 2
       = TileMap.GB (TileMap.m1 (TileMap.mc map tile)) 6 2 /\
     TileMap.type_height map' = TileMap.type_height map /\
     (forall other, other <> tile -> TileMap.mc map' other = TileMap.mc map other) /\
     TileMap.bytes map').
Proof.
  intros Hb Ht Ho.
  unfold TileMap.SetTileOwner, TileMap.GetTileOwner.
  destruct (TileMap.owner_assertions env map tile) as [[] |] eqn:Ea; simpl.
  2: { split; [split; reflexivity |]. intros map' E. discriminate E. }
  pose proof (owner_assertions_in_map env map tile Ht Ea) as Htile.
  destruct (in_map_true env tile Htile) as [H1 H2].
  unfold TileMap.read_mc. rewrite H1. simpl.
  split; [split; intros E; discriminate E |].
  intros map' E. injection E as E. subst map'.
  destruct (Hb tile) as [_ [Hm0 [Hm1 Hm7]]].
  destruct (SB_0_5 (TileMap.m1 (TileMap.mc map tile)) owner Hm1 Ho)
    as [Hget [Hsub Hbyte]].
  split.
  { rewrite owner_assertions_m0 with (map := map)
      by (simpl; rewrite store_same; reflexivity).
    rewrite Ea. simpl. rewrite store_same. simpl.
    f_equal. exact Hget. }
  split.
  { rewrite !GetTileType_in_map by exact Htile. simpl. rewrite store_same.
    reflexivity. }
  split; [simpl; rewrite store_same; simpl; exact Hsub |].
  split; [reflexivity |].
  split; [intros other Hother; simpl; apply store_other; exact Hother |].
  intros i. simpl. destruct (Hb i) as [Hi Hrest]. split; [exact Hi |].
  unfold TileMap.store. destruct (i =? tile); [simpl | exact Hrest].
  split; [exact Hm0 | split; [exact Hbyte | exact Hm7]].
Qed.

Lemma SetTileOwner_then_GetTileOwner_witness :
  TileMap.bytes map_16 /\ 0 <= 12 <= 31 /\
  exists map',
    TileMap.SetTileOwner env_16 map_16 17 12 = Some map' /\
    TileMap.GetTileOwner env_16 map' 17 = Some 12.
Proof.
  split; [exact map_16_bytes |]. split; [lia |].
  eexists. split; [reflexivity |].
  exact (proj1 (proj2 (SetTileOwner_then_GetTileOwner env_16 map_16 17 12 map_16_bytes
                         ltac:(lia) ltac:(lia)) _ eq_refl)).
Defined.

(** X20. [SetTileTypeSubtype] fails exactly when the tile is outside
    the map, the type is 8 or more, or the type has no subtypes.  When
    it succeeds with a subtype of two bits, [GetTileType] and
    [GetTileSubtype] of the tile return the type and the subtype that
    were set, and the five owner bits of the byte [m1] are as before. *)
Theorem SetTileTypeSubtype_then_get (env : TileMap.Env) (map : TileMap.Map)
    (tile : TileIndex) (type subtype : Z) :
  TileMap.bytes map -> 0 <= tile -> 0 <= type -> 0 <= subtype <= 3 ->
  (TileMap.SetTileTypeSubtype env map tile type subtype = None
     <-> TileMap.MapSize env <= tile \/ 8 <= type \/
         TileMap.TileTypeHasSubtypes env type = false) /\
  (forall map', TileMap.SetTileTypeSubtype env map tile type subtype = Some map' ->
     TileMap.GetTileType env map' tile = Some type /\
     TileMap.GetTileSubtype env map' tile = Some subtype /\
     TileMap.GB (TileMap.m1 (TileMap.mc map' tile)) 0 5
       = TileMap.GB (TileMap.m1 (TileMap.mc map tile)) 0 5 /\
     TileMap.type_height map' = TileMap.type_height map /\
     (forall other, other <> tile -> TileMap.mc map' other = TileMap.mc map other)).
Proof.
  intros Hb Ht Hty Hs.
  destruct (Z_lt_le_dec tile (TileMap.MapSize env)) as [Hin | Hout].
  2: { unfold TileMap.SetTileTypeSubtype.
       destruct (Z.ltb_spec tile (TileMap.MapSize env)); [lia | simpl].
       split; [split; [intros _; left; exact Hout | reflexivity] |].
       intros map' E. discriminate E. }
  assert (Htile : 0 <= tile < TileMap.MapSize env) by lia.
  destruct (in_map_true env tile Htile) as [H1 H2].
  unfold TileMap.SetTileTypeSubtype, TileMap.read_mc.
  rewrite H1, H2. simpl.
  destruct (Z.ltb_spec type 8) as [Hlt | Hge]; simpl.
  2: { split; [split; [intros _; right; left; exact Hge | reflexivity] |].
       intros map' E. discriminate E. }
  destruct (TileMap.TileTypeHasSubtypes env type) eqn:Hsub; simpl.
  2: { split; [split; [intros _; right; right; reflexivity | reflexivity] |].
       intros map' E. discriminate E. }
  split; [split; [discriminate | intros [Ho | [Hg | Hf]]; [lia | lia | discriminate Hf]] |].
  intros map' E. injection E as E. subst map'.
  destruct (Hb tile) as [_ [Hm0 [Hm1 _]]].
  destruct (SB_4_4 (TileMap.m0 (TileMap.mc map tile)) type Hm0 ltac:(lia))
    as [Htype _].
  destruct (SB_6_2 (TileMap.m1 (TileMap.mc map tile)) subtype Hm1 Hs)
    as [Hget [_ [Howner _]]].
  assert (Hgt : TileMap.GetTileType env
                  (TileMap.mkMap (TileMap.type_height map)
                     (TileMap.store (TileMap.mc map) tile
                        (TileMap.mkTile
                           (TileMap.SB (TileMap.m0 (TileMap.mc map tile)) 4 4 type)
                           (TileMap.SB (TileMap.m1 (TileMap.mc map tile)) 6 2 subtype)
                           (TileMap.m7 (TileMap.mc map tile))))) tile = Some type).
  { rewrite GetTileType_in_map by exact Htile. simpl. rewrite store_same. simpl.
    f_equal. exact Htype. }
  split; [exact Hgt |].
  split.
  { unfold TileMap.GetTileSubtype. rewrite Hgt, H2. simpl. rewrite Hsub. simpl.
    unfold TileMap.read_mc. rewrite H1. simpl. rewrite store_same. simpl.
    f_equal. exact Hget. }
  split; [simpl; rewrite store_same; simpl; exact Howner |].
  split; [reflexivity |].
  intros other Hother. simpl. apply store_other. exact Hother.
Qed.

Lemma SetTileTypeSubtype_then_get_witness :
  TileMap.bytes map_16 /\ 0 <= 2 <= 3 /\
  exists map',
    TileMap.SetTileTypeSubtype env_16 map_16 17 5 2 = Some map' /\
    TileMap.GetTileType env_16 map' 17 = Some 5 /\
    TileMap.GetTileSubtype env_16 map' 17 = Some 2.
Proof.
  split; [exact map_16_bytes |]. split; [lia |].
  eexists. split; [reflexivity |].
  pose proof (proj2 (SetTileTypeSubtype_then_get env_16 map_16 17 5 2 map_16_bytes
                       ltac:(lia) ltac:(lia) ltac:(lia)) _ eq_refl) as H.
  split; [exact (proj1 H) | exact (proj1 (proj2 H))].
Defined.

(** ** Positions within a tile *)

(** X21. [DistanceFromTileEdge] fails exactly when [x] or [y] is not
    below [TILE_SIZE] or the side is none of the four directions.
    Otherwise the distance is below [TILE_SIZE], and the distances from
    two opposite edges add up to [TILE_SIZE - 1]. *)
Theorem DistanceFromTileEdge_of_opposite_edges (env : TileMap.Env) (x y : Z) :
  MInt.is_uint (TileMap.TILE_SIZE env) -> 0 <= x -> 0 <= y ->
  (forall side,
     TileMap.DistanceFromTileEdge env side x y = None
       <-> TileMap.TILE_SIZE env <= x \/ TileMap.TILE_SIZE env <= y \/
           side = TileMap.DIAGDIR_END) /\
  (forall side d,
     TileMap.DistanceFromTileEdge env side x y = Some d ->
     0 <= d < TileMap.TILE_SIZE env) /\
  (forall ne sw,
     TileMap.DistanceFromTileEdge env TileMap.DIAGDIR_NE x y = Some ne ->
     TileMap.DistanceFromTileEdge env TileMap.DIAGDIR_SW x y = Some sw ->
     ne + sw = TileMap.TILE_SIZE env - 1) /\
  (forall nw se,
     TileMap.DistanceFromTileEdge env TileMap.DIAGDIR_NW x y = Some nw ->
     TileMap.DistanceFromTileEdge env TileMap.DIAGDIR_SE x y = Some se ->
     nw + se = TileMap.TILE_SIZE env - 1).
Proof.
  intros Hsize Hx Hy.
  unfold TileMap.DistanceFromTileEdge.
  destruct (Z.ltb_spec x (TileMap.TILE_SIZE env)) as [Hxs | Hxs]; simpl.
  2: { split; [intros side; split; [intros _; left; exact Hxs | reflexivity] |].
       split; [intros side d E; discriminate E |].
       split; intros a b E; discriminate E. }
  destruct (Z.ltb_spec y (TileMap.TILE_SIZE env)) as [Hys | Hys]; simpl.
  2: { split; [intros side; split; [intros _; right; left; exact Hys | reflexivity] |].
       split; [intros side d E; discriminate E |].
       split; intros a b E; discriminate E. }
  assert (Hsub : forall v, 0 <= v < TileMap.TILE_SIZE env ->
            MInt.uint_sub (MInt.uint_sub (TileMap.TILE_SIZE env) 1) v
              = TileMap.TILE_SIZE env - 1 - v).
  { intros v Hv. unfold MInt.is_uint in Hsize.
    rewrite (uint_sub_exact (TileMap.TILE_SIZE env) 1) by (unfold MInt.is_uint; lia).
    apply uint_sub_exact; unfold MInt.is_uint; lia. }
  rewrite (Hsub x) by lia. rewrite (Hsub y) by lia.
  split.
  { intros side.
    destruct side;
      try (split; [intros H; discriminate H
                  | intros [H | [H | H]]; [lia | lia | discriminate H]]).
    split; [intros _; right; right; reflexivity | reflexivity]. }
  split.
  { intros side d E. destruct side; try discriminate E; injection E as E; lia. }
  split; intros a b Ea Eb; injection Ea as Ea; injection Eb as Eb; lia.
Qed.

Lemma DistanceFromTileEdge_of_opposite_edges_witness :
  MInt.is_uint (TileMap.TILE_SIZE env_16) /\
  TileMap.DistanceFromTileEdge env_16 TileMap.DIAGDIR_NE 3 12 = Some 3 /\
  TileMap.DistanceFromTileEdge env_16 TileMap.DIAGDIR_SW 3 12 = Some 12 /\
  3 + 12 = TileMap.TILE_SIZE env_16 - 1.
Proof.
  assert (Hs : MInt.is_uint (TileMap.TILE_SIZE env_16))
    by (unfold MInt.is_uint, MInt.UINT_MAX; simpl; lia).
  assert (Hne : TileMap.DistanceFromTileEdge env_16 TileMap.DIAGDIR_NE 3 12 = Some 3)
    by reflexivity.
  assert (Hsw : TileMap.DistanceFromTileEdge env_16 TileMap.DIAGDIR_SW 3 12 = Some 12)
    by reflexivity.
  split; [exact Hs |]. split; [exact Hne |]. split; [exact Hsw |].
  exact (proj1 (proj2 (proj2 (DistanceFromTileEdge_of_opposite_edges env_16 3 12 Hs
                                ltac:(lia) ltac:(lia)))) 3 12 Hne Hsw).
Defined.

(** X22. [TileHash] gives the same value to all positions of a square
    of 16 by 16: it depends on [x] and [y] only through [x / 16] and
    [y / 16].  The hash is a [uint] value and [TileHash2Bit] is between
    0 and 3. *)
Theorem TileHash_of_a_square (x y x' y' : Z) :
  0 <= x -> 0 <= y -> x / 16 = x' / 16 -> y / 16 = y' / 16 ->
  TileMap.TileHash x y = TileMap.TileHash x' y' /\
  TileMap.TileHash2Bit x y = TileMap.TileHash2Bit x' y' /\
  MInt.is_uint (TileMap.TileHash x y) /\
  0 <= TileMap.TileHash2Bit x y <= 3.
Proof.
  intros Hx Hy Ex Ey.
  assert (Hshift : forall v, Z.shiftr v 4 = v / 16 /\ Z.shiftr v 6 = v / 16 / 4).
  { intros v. rewrite !Z.shiftr_div_pow2 by lia.
    change (2 ^ 4) with 16. change (2 ^ 6) with (16 * 4).
    split; [reflexivity |].
    rewrite Z.div_div by lia. reflexivity. }
  assert (Hhash : TileMap.TileHash x y = TileMap.TileHash x' y').
  { unfold TileMap.TileHash.
    rewrite (proj1 (Hshift x)), (proj2 (Hshift x)), (proj1 (Hshift y)), (proj2 (Hshift y)).
    rewrite (proj1 (Hshift x')), (proj2 (Hshift x')), (proj1 (Hshift y')),
      (proj2 (Hshift y')).
    rewrite Ex, Ey. reflexivity. }
  split; [exact Hhash |].
  split; [unfold TileMap.TileHash2Bit; rewrite Hhash; reflexivity |].
  split; [unfold TileMap.TileHash; apply to_uint_range |].
  unfold TileMap.TileHash2Bit, TileMap.GB.
  rewrite Z.shiftr_0_r.
  change (Z.shiftl 1 2 - 1) with (Z.ones 2).
  rewrite Z.land_ones by lia.
  change (2 ^ 2) with 4.
  pose proof (Z.mod_pos_bound (TileMap.TileHash x y) 4). lia.
Qed.

Lemma TileHash_of_a_square_witness :
  35 / 16 = 47 / 16 /\ 100 / 16 = 96 / 16 /\
  TileMap.TileHash 35 100 = TileMap.TileHash 47 96.
Proof.
  assert (Ex : 35 / 16 = 47 / 16) by reflexivity.
  assert (Ey : 100 / 16 = 96 / 16) by reflexivity.
  split; [exact Ex |]. split; [exact Ey |].
  exact (proj1 (TileHash_of_a_square 35 100 47 96 ltac:(lia) ltac:(lia) Ex Ey)).
Defined.

(** ** The animation frame *)

Lemma animated_m0 (env : TileMap.Env) (map map' : TileMap.Map) (t : TileIndex) :
  TileMap.m0 (TileMap.mc map' t) = TileMap.m0 (TileMap.mc map t) ->
  TileMap.animated env map' t = TileMap.animated env map t.
Proof.
  intros H.
  unfold TileMap.animated, TileMap.IsHouseTile, TileMap.IsObjectTile,
    TileMap.IsIndustryTile, TileMap.IsStationTile, TileMap.IsTileType,
    TileMap.GetTileType, TileMap.read_mc.
  destruct (t <? TileMap.MapSize env); destruct (TileMap.in_map env t);
    simpl; rewrite ?H; reflexivity.
Qed.

Lemma animated_in_map (env : TileMap.Env) (map : TileMap.Map) (t : TileIndex) :
  TileMap.animated env map t = Some true -> TileMap.in_map env t = true.
Proof.
  unfold TileMap.animated, TileMap.IsHouseTile, TileMap.read_mc.
  destruct (TileMap.in_map env t); [reflexivity | simpl; discriminate].
Qed.

(** X23. [SetAnimationFrame] succeeds exactly when [GetAnimationFrame]
    does: on a tile of the map that is a house, an object, an industry
    or a station.  Then [GetAnimationFrame] of the tile returns the
    frame that was set, and the bytes [m0] and [m1] of the tile, the
    other tiles and the heights are as before. *)
Theorem SetAnimationFrame_then_GetAnimationFrame (env : TileMap.Env)
    (map : TileMap.Map) (t : TileIndex) (frame : Z) :
  (TileMap.SetAnimationFrame env map t frame = None
     <-> TileMap.GetAnimationFrame env map t = None) /\
  (TileMap.GetAnimationFrame env map t = None
     <-> TileMap.animated env map t <> Some true) /\
  (forall map', TileMap.SetAnimationFrame env map t frame = Some map' ->
     TileMap.GetAnimationFrame env map' t = Some frame /\
     TileMap.m0 (TileMap.mc map' t) = TileMap.m0 (TileMap.mc map t) /\
     TileMap.m1 (TileMap.mc map' t) = TileMap.m1 (TileMap.mc map t) /\
     TileMap.type_height map' = TileMap.type_height map /\
     (forall other, other <> t -> TileMap.mc map' other = TileMap.mc map other)).
Proof.
  unfold TileMap.SetAnimationFrame, TileMap.GetAnimationFrame.
  destruct (TileMap.animated env map t) as [[|] |] eqn:Ea; simpl.
  - pose proof (animated_in_map env map t Ea) as Hin.
    unfold TileMap.read_mc. rewrite Hin. simpl.
    split; [split; intros E; discriminate E |].
    split; [split; [intros E; discriminate E | intros E; contradiction E; reflexivity] |].
    intros map' E. injection E as E. subst map'.
    split.
    { rewrite animated_m0 with (map := map)
        by (simpl; rewrite store_same; reflexivity).
      rewrite Ea. simpl. rewrite store_same. reflexivity. }
    split; [simpl; rewrite store_same; reflexivity |].
    split; [simpl; rewrite store_same; reflexivity |].
    split; [reflexivity |].
    intros other Ho. simpl. apply store_other. exact Ho.
  - split; [split; reflexivity |].
    split; [split; [intros _ E; discriminate E | reflexivity] |].
    intros map' E. discriminate E.
  - split; [split; reflexivity |].
    split; [split; [intros _ E; discriminate E | reflexivity] |].
    intros map' E. discriminate E.
Qed.

Lemma SetAnimationFrame_then_GetAnimationFrame_witness :
  exists map',
    TileMap.SetAnimationFrame env_16 map_16 17 200 = Some map' /\
    TileMap.GetAnimationFrame env_16 map' 17 = Some 200.
Proof.
  eexists. split; [reflexivity |].
  exact (proj1 (proj2 (proj2 (SetAnimationFrame_then_GetAnimationFrame
                                env_16 map_16 17 200)) _ eq_refl)).
Defined.

(** The full packet with feeder share 200000000000000: the shares of
    32767 and of 32768 units do not saturate, the share of all 65535
    units does. *)
Example FeederShare_part_of_packet_large_share :
  CargoPacket.FeederShare_part packet_large_share 32767 = Some 99998474097810 /\
  CargoPacket.FeederShare_part packet_large_share 32768 = Some 100001525902189 /\
  CargoPacket.FeederShare_part packet_large_share 65535 = Some 140739635871744.
Proof. repeat split. Qed.
